(* Shallow embedding of the EOS namespace client of reva
   (pkg/eosclient: gRPC/binary client, and pkg/eosclient/eoshttp), as it
   appears in src/pkg/siteacc/alerting/dispatcher.go.

   Go strings are byte strings: they are modelled by Stdlib's String.string
   (a list of ascii characters, one per byte).  Go's (value, error) pairs are
   modelled by [outcome]: a value, an error, or a run-time panic. *)

From Stdlib Require Import String Ascii List ZArith Bool Lia.
Import ListNotations.
Open Scope string_scope.
Open Scope Z_scope.

(* ------------------------------------------------------------------ *)
(** * Errors and results *)

(** The error values the client produces.  [NotFound], [PermissionDenied],
    [InternalError] and [NotSupported] are reva's errtypes; [Wrapped] is
    github.com/pkg/errors' [errors.Wrap]; [NumError] is strconv's; the
    others are errors coming from the runtime (exec, net/http, os). *)
Inductive num_err := ErrSyntax | ErrRange.

Inductive go_error :=
| NotFound (msg : string)
| PermissionDenied (msg : string)
| InternalError (msg : string)
| NotSupported (msg : string)
| NumError (func num : string) (e : num_err)
| Wrapped (msg : string) (cause : go_error)
| ExitError (code : Z)            (* *exec.ExitError of a child that exited *)
| NetError (timeout : bool) (msg : string)  (* net/url error; Timeout() *)
| OtherError (msg : string).

(** errors.Cause of github.com/pkg/errors: strip the wrappers. *)
Fixpoint cause (e : go_error) : go_error :=
  match e with
  | Wrapped _ c => cause c
  | e => e
  end.

(** os.IsTimeout: true for errors implementing [Timeout() bool] that
    answer true; reva's errtypes and wrappers do not. *)
Definition os_IsTimeout (e : go_error) : bool :=
  match e with
  | NetError t _ => t
  | _ => false
  end.

Inductive outcome (A : Type) :=
| Ret (a : A)
| Fail (e : go_error)
| Panic (msg : string).
Arguments Ret {A} a.
Arguments Fail {A} e.
Arguments Panic {A} msg.

Definition bind {A B} (m : outcome A) (f : A -> outcome B) : outcome B :=
  match m with
  | Ret a => f a
  | Fail e => Fail e
  | Panic s => Panic s
  end.

Notation "x <- m ;; k" := (bind m (fun x => k))
  (at level 61, m at next level, right associativity).

(* ------------------------------------------------------------------ *)
(** * The parts of Go's standard library the client uses *)
Module GoLib.

(** strings.Split(s, sep) for a one-byte separator: always returns
    Count(s, sep) + 1 pieces; [Split("", sep) = [""]]. *)
Fixpoint split (c : ascii) (s : string) : list string :=
  match s with
  | EmptyString => [EmptyString]
  | String a s' =>
      if Ascii.eqb a c then EmptyString :: split c s'
      else match split c s' with
           | h :: t => String a h :: t
           | [] => [String a EmptyString]
           end
  end.

(** strings.Join(elems, sep). *)
Fixpoint join (sep : string) (l : list string) : string :=
  match l with
  | [] => EmptyString
  | [x] => x
  | x :: t => x ++ sep ++ join sep t
  end.

(** strings.Index(s, substr): the byte offset of the FIRST occurrence,
    or -1. *)
Fixpoint index_from (s sub : string) (i : Z) : Z :=
  if String.prefix sub s then i
  else match s with
       | EmptyString => -1
       | String _ s' => index_from s' sub (i + 1)
       end.

Definition index (s sub : string) : Z := index_from s sub 0.

(** strings.Contains. *)
Definition contains (s sub : string) : bool := (0 <=? index s sub).

(** s[i] for a byte index; out of range panics. *)
Definition byte_at (s : string) (i : Z) : outcome ascii :=
  if (i <? 0) then Panic "index out of range"
  else match String.get (Z.to_nat i) s with
       | Some c => Ret c
       | None => Panic "index out of range"
       end.

(** strconv.ParseUint(s, 10, 64).  With an explicit base 10 no prefix
    ("0x", "0o", ...) and no underscore is accepted: every byte must be a
    decimal digit.  The loop tests the digit first, then overflow, as
    strconv does. *)
Definition maxUint64 : Z := 2 ^ 64 - 1.
Definition cutoff10 : Z := maxUint64 / 10 + 1.

Definition digit_value (c : ascii) : option Z :=
  let n := Z.of_nat (nat_of_ascii c) in
  if (48 <=? n) && (n <=? 57) then Some (n - 48) else None.

Fixpoint parse_digits (s : string) (n : Z) : outcome Z :=
  match s with
  | EmptyString => Ret n
  | String c s' =>
      match digit_value c with
      | None => Fail (NumError "ParseUint" EmptyString ErrSyntax)
      | Some d =>
          if cutoff10 <=? n then Fail (NumError "ParseUint" EmptyString ErrRange)
          else let n1 := n * 10 + d in
               if maxUint64 <? n1 then Fail (NumError "ParseUint" EmptyString ErrRange)
               else parse_digits s' n1
      end
  end.

(** The [Num] field of the error is the input, as strconv sets it. *)
Definition ParseUint10 (s : string) : outcome Z :=
  match s with
  | EmptyString => Fail (NumError "ParseUint" s ErrSyntax)
  | _ => match parse_digits s 0 with
         | Fail (NumError f _ e) => Fail (NumError f s e)
         | r => r
         end
  end.

(** A Go map[string]string, as the list of its bindings; assignment
    replaces the binding of an existing key; a missing key reads as "". *)
Definition smap := list (string * string).

Fixpoint map_set (k v : string) (m : smap) : smap :=
  match m with
  | [] => [(k, v)]
  | (k', v') :: t => if String.eqb k k' then (k, v) :: t else (k', v') :: map_set k v t
  end.

Fixpoint map_get (m : smap) (k : string) : string :=
  match m with
  | [] => EmptyString
  | (k', v) :: t => if String.eqb k k' then v else map_get t k
  end.

End GoLib.
Import GoLib.

(* ------------------------------------------------------------------ *)
(** * pkg/eosclient: the gRPC / binary client *)
Module EosClient.

(** type Options struct (the fields the claims touch, all of them). *)
Record Options := mkOptions {
  ForceSingleUserMode : bool;
  UseKeytab : bool;
  SingleUsername : string;
  EosBinary : string;
  XrdcopyBinary : string;
  URL : string;
  GrpcURI : string;
  CacheDirectory : string;
  Keytab : string;
  Authkey : string;
  SecProtocol : string
}.

Definition set_SingleUsername (o : Options) (s : string) : Options :=
  mkOptions o.(ForceSingleUserMode) o.(UseKeytab) s o.(EosBinary)
    o.(XrdcopyBinary) o.(URL) o.(GrpcURI) o.(CacheDirectory) o.(Keytab)
    o.(Authkey) o.(SecProtocol).
Definition set_EosBinary (o : Options) (s : string) : Options :=
  mkOptions o.(ForceSingleUserMode) o.(UseKeytab) o.(SingleUsername) s
    o.(XrdcopyBinary) o.(URL) o.(GrpcURI) o.(CacheDirectory) o.(Keytab)
    o.(Authkey) o.(SecProtocol).
Definition set_XrdcopyBinary (o : Options) (s : string) : Options :=
  mkOptions o.(ForceSingleUserMode) o.(UseKeytab) o.(SingleUsername)
    o.(EosBinary) s o.(URL) o.(GrpcURI) o.(CacheDirectory) o.(Keytab)
    o.(Authkey) o.(SecProtocol).
Definition set_URL (o : Options) (s : string) : Options :=
  mkOptions o.(ForceSingleUserMode) o.(UseKeytab) o.(SingleUsername)
    o.(EosBinary) o.(XrdcopyBinary) s o.(GrpcURI) o.(CacheDirectory)
    o.(Keytab) o.(Authkey) o.(SecProtocol).
Definition set_CacheDirectory (o : Options) (s : string) : Options :=
  mkOptions o.(ForceSingleUserMode) o.(UseKeytab) o.(SingleUsername)
    o.(EosBinary) o.(XrdcopyBinary) o.(URL) o.(GrpcURI) s o.(Keytab)
    o.(Authkey) o.(SecProtocol).

(** func (opt *Options) init(); [tempdir] is os.TempDir(). *)
Definition init (tempdir : string) (opt : Options) : Options :=
  let opt := if opt.(ForceSingleUserMode) && negb (String.eqb opt.(SingleUsername) "")
             then set_SingleUsername opt "apache" else opt in
  let opt := if String.eqb opt.(EosBinary) "" then set_EosBinary opt "/usr/bin/eos" else opt in
  let opt := if String.eqb opt.(XrdcopyBinary) "" then set_XrdcopyBinary opt "/usr/bin/xrdcopy" else opt in
  let opt := if String.eqb opt.(URL) "" then set_URL opt "root://eos-example.org" else opt in
  if String.eqb opt.(CacheDirectory) "" then set_CacheDirectory opt tempdir else opt.

(** os/user.User and os/user.Lookup against the host passwd database,
    given as the list of its accounts. *)
Record User := mkUser { Username : string; Uid : string; Gid : string }.

Fixpoint Lookup (passwd : list User) (name : string) : outcome User :=
  match passwd with
  | [] => Fail (OtherError ("user: unknown user " ++ name))
  | u :: t => if String.eqb u.(Username) name then Ret u else Lookup t name
  end.

(** The name getUnixUser hands to the passwd lookup. *)
Definition unixUserName (opt : Options) (username : string) : string :=
  if opt.(ForceSingleUserMode) then opt.(SingleUsername) else username.

(** func (c *Client) getUnixUser(username string) *)
Definition getUnixUser (passwd : list User) (opt : Options) (username : string)
  : outcome User :=
  Lookup passwd (unixUserName opt username).

(** ** Recycle-bin listing (eos recycle ls -m) *)

Record DeletedEntry := mkDeletedEntry {
  RestorePath : string;
  RestoreKey : string;
  Size : Z;
  DeletionMTime : Z;
  IsDir : bool
}.

(** func getMap(partsBySpace []string) map[string]string *)
Definition getMap (partsBySpace : list string) : smap :=
  fold_left (fun kv pair =>
               match split "=" pair with
               | k :: v :: _ => map_set k v kv
               | _ => kv
               end) partsBySpace [].

(** func parseRecycleEntry(raw string) (DeletedEntry pointer, error).
    The slice expression partsBySpace[9:] panics when fewer than nine
    tokens precede the last one. *)
Definition parseRecycleEntry (raw : string) : outcome DeletedEntry :=
  let partsBySpace := split " " raw in
  let restoreKeyPair := last partsBySpace EmptyString in
  let partsBySpace := removelast partsBySpace in
  if (length partsBySpace <? 9)%nat then Panic "slice bounds out of range"
  else
  let restorePathPair := join " " (skipn 9 partsBySpace) in
  let partsBySpace := app (firstn 9 partsBySpace) [restorePathPair; restoreKeyPair] in
  let kv := getMap partsBySpace in
  size <- ParseUint10 (map_get kv "size") ;;
  let isDir := String.eqb (map_get kv "type") "recursive-dir" in
  deletionMTime <- ParseUint10 (hd EmptyString (split "." (map_get kv "deletion-time"))) ;;
  Ret (mkDeletedEntry (map_get kv "restore-path") (map_get kv "restore-key")
         size deletionMTime isDir).

(** func parseRecycleList(raw string) ([]*DeletedEntry, error) *)
Fixpoint parseRecycleLines (rawLines : list string) : outcome (list DeletedEntry) :=
  match rawLines with
  | [] => Ret []
  | rl :: t =>
      if String.eqb rl "" then parseRecycleLines t
      else entry <- parseRecycleEntry rl ;;
           entries <- parseRecycleLines t ;;
           Ret (entry :: entries)
  end.

Definition newline : ascii := ascii_of_nat 10.

Definition parseRecycleList (raw : string) : outcome (list DeletedEntry) :=
  parseRecycleLines (split newline raw).

(** ** Child processes: execute (xrdcopy) and executeEOS (eos) *)

(** How cmd.Run() ends: the child exits with a status (Run returns nil
    for status 0 and an *exec.ExitError otherwise), the child is killed by
    a signal (an *exec.ExitError whose ExitStatus() is -1), or the child
    cannot be started (an error that is not an *exec.ExitError). *)
Inductive run_result :=
| Exited (status : Z)
| Signaled
| StartFailed (msg : string).

Definition run_error (r : run_result) : option go_error :=
  match r with
  | Exited 0 => None
  | Exited s => Some (ExitError s)
  | Signaled => Some (ExitError (-1))
  | StartFailed m => Some (OtherError m)
  end.

(** Is the error returned by cmd.Run an *exec.ExitError, and with which
    status. *)
Definition exit_status_of (r : run_result) : option Z :=
  match r with
  | Exited 0 => None
  | Exited s => Some s
  | Signaled => Some (-1)
  | StartFailed _ => None
  end.

Record ExecResult := mkExecResult {
  out : string;
  errout : string;
  exec_err : option go_error
}.

Definition wrap_msg : string := "eosclient: error while executing command".

(** func (c *Client) execute(ctx, cmd) (string, string, error).
    [stdout] and [stderr] are what the child wrote to the two buffers. *)
Definition execute (r : run_result) (stdout stderr : string) : ExecResult :=
  let err := run_error r in
  let '(exitStatus, err) :=
    match exit_status_of r with
    | Some st =>
        (st, if Z.eqb st 0 then None
             else if Z.eqb st 2 then Some (NotFound stderr)
             else err)
    | None => (0, err)
    end in
  let err := match err with
             | Some e => if Z.eqb exitStatus 2 then Some e else Some (Wrapped wrap_msg e)
             | None => None
             end in
  mkExecResult stdout stderr err.

(** func (c *Client) executeEOS(ctx, cmd) (string, string, error). *)
Definition executeEOS (r : run_result) (stdout stderr : string) : ExecResult :=
  let err := run_error r in
  let '(exitStatus, err) :=
    match exit_status_of r with
    | Some st =>
        (st, if Z.eqb st 0 then None
             else if Z.eqb st 2 then Some (NotFound stderr)
             else if Z.eqb st 22 then Some (PermissionDenied stderr)
             else err)
    | None => (0, err)
    end in
  let err := match err with
             | Some e => if Z.eqb exitStatus 2 then Some e else Some (Wrapped wrap_msg e)
             | None => None
             end in
  mkExecResult stdout stderr err.

(** The error kinds of the taxonomy, read through pkg/errors wrappers. *)
Definition is_not_found (e : go_error) : bool :=
  match cause e with NotFound _ => true | _ => false end.
Definition is_permission_denied (e : go_error) : bool :=
  match cause e with PermissionDenied _ => true | _ => false end.
Definition is_not_supported (e : go_error) : bool :=
  match cause e with NotSupported _ => true | _ => false end.

(** ** gRPC namespace requests *)

Inductive NSCommand :=
| NoCommand
| Mkdir (path : string) (mode : Z) (recursive : bool).

Record NSRequest := mkNSRequest {
  RoleUid : Z;
  RoleGid : Z;
  ReqAuthkey : string;
  Command : NSCommand
}.

(** An NSResponse; [resp_error] is its Error field (nil or Code, Msg). *)
Record NSResponse := mkNSResponse { resp_error : option (Z * string) }.

(** func (c *Client) initNSRequest(username string) *)
Definition initNSRequest (passwd : list User) (opt : Options) (username : string)
  : outcome NSRequest :=
  unixUser <- getUnixUser passwd opt username ;;
  uid <- ParseUint10 unixUser.(Uid) ;;
  gid <- ParseUint10 unixUser.(Gid) ;;
  Ret (mkNSRequest uid gid opt.(Authkey) NoCommand).

(** func (c *Client) CreateDir(ctx, username, path string) error.
    The result pairs the requests sent to the MGM with the returned error;
    [reply] is what erpc.EosClient.Exec answers (a transport error, or a
    possibly nil response).  The log line reads resp.GetError().Code, a
    field of a possibly nil pointer. *)
Definition CreateDir (passwd : list User) (opt : Options) (username path : string)
  (reply : outcome (option NSResponse)) : list NSRequest * outcome unit :=
  match initNSRequest passwd opt username with
  | Fail e => ([], Fail e)
  | Panic m => ([], Panic m)
  | Ret rq =>
      match ParseUint10 "0o750" with
      | Fail e => ([], Fail e)
      | Panic m => ([], Panic m)
      | Ret md =>
          let rq := mkNSRequest rq.(RoleUid) rq.(RoleGid) rq.(ReqAuthkey)
                      (Mkdir path md true) in
          ([rq],
           match reply with
           | Fail e => Fail e
           | Panic m => Panic m
           | Ret None => Panic "nil pointer dereference"
           | Ret (Some resp) =>
               match resp.(resp_error) with
               | None => Panic "nil pointer dereference"
               | Some _ => Ret tt
               end
           end)
      end
  end.

(** func (c *Client) Rename(ctx, username, oldPath, newPath string) error *)
Definition Rename (username oldPath newPath : string) : outcome unit :=
  Fail (NotFound ("acltype" ++ ":" ++ newPath)).

(** func (c *Client) GetQuota(ctx, username, path string) (int, int, error) *)
Definition GetQuota (username path : string) : outcome (Z * Z) :=
  Fail (NotSupported ("acltype" ++ ":" ++ path)).

(** ** Listing a directory over gRPC (Find) *)

Record MDFields := mkMDFields {
  md_id : Z;
  md_uid : Z;
  md_gid : Z;
  md_mtime : option Z;    (* the Mtime pointer; Some sec when set *)
  md_name : string;
  md_xattrs : smap;
  md_size : Z
}.

(** An MDResponse: its Type, and its Fmd (file) and Cmd (container)
    records, each possibly nil. *)
Record MDResponse := mkMDResponse {
  md_type : Z;
  md_fmd : option MDFields;
  md_cmd : option MDFields
}.

(** type FileInfo struct (the fields grpcMDResponseToFileInfo sets). *)
Record FileInfo := mkFileInfo {
  fi_IsDir : bool;
  fi_Inode : Z;
  fi_UID : Z;
  fi_GID : Z;
  fi_MTimeSec : Z;
  fi_Size : Z;
  fi_File : string;
  fi_ETag : string;
  fi_Attrs : smap
}.

(** func (c *Client) grpcMDResponseToFileInfo(st *erpc.MDResponse) *)
Definition grpcMDResponseToFileInfo (st : MDResponse) : outcome FileInfo :=
  let isDir := negb (Z.eqb st.(md_type) 0) in
  let conv (m : MDFields) (size : Z) : outcome FileInfo :=
    match m.(md_mtime) with
    | None => Panic "nil pointer dereference"
    | Some sec =>
        let attrs := fold_left (fun a kv => map_set (fst kv) (snd kv) a) m.(md_xattrs) [] in
        Ret (mkFileInfo isDir m.(md_id) m.(md_uid) m.(md_gid) sec size
               m.(md_name) (map_get attrs "etag") attrs)
    end in
  match st.(md_fmd), st.(md_cmd) with
  | None, None =>
      Fail (Wrapped "Invalid response (st.Cmd and st.Fmd are nil)" (NotSupported ""))
  | Some f, _ => conv f f.(md_size)
  | None, Some c => conv c 0
  end.

(** The server stream of a Find call: each Recv() yields a (possibly nil)
    message, until it returns io.EOF ([SEnd None]) or an error
    ([SEnd (Some e)]). *)
Inductive FindStream :=
| SEnd (err : option go_error)
| SCons (rsp : option MDResponse) (rest : FindStream).

Fixpoint recvLoop (path : string) (s : FindStream) (mylst : list FileInfo)
  : outcome (list FileInfo) :=
  match s with
  | SEnd None => Ret mylst
  | SEnd (Some e) => Fail e
  | SCons None _ => Fail (NotFound path)
  | SCons (Some rsp) rest =>
      myitem <- grpcMDResponseToFileInfo rsp ;;
      recvLoop path rest (app mylst [myitem])
  end.

(** func (c *Client) List(ctx, username, path string) ([]*FileInfo, error);
    [find] is what erpc.EosClient.Find answers. *)
Definition List (passwd : list User) (opt : Options) (username path : string)
  (find : outcome FindStream) : outcome (list FileInfo) :=
  unixUser <- getUnixUser passwd opt username ;;
  _uid <- ParseUint10 unixUser.(Uid) ;;
  _gid <- ParseUint10 unixUser.(Gid) ;;
  resp <- find ;;
  recvLoop path resp [].

(** path.Clean: lexical normalisation (drop empty and "." elements,
    resolve ".." and strip the trailing slash). *)
Definition clean_step (rooted : bool) (acc : list string) (seg : string) : list string :=
  if String.eqb seg "" || String.eqb seg "." then acc
  else if String.eqb seg ".." then
    match acc with
    | x :: t => if String.eqb x ".." then ".." :: acc else t
    | [] => if rooted then [] else [".."]
    end
  else seg :: acc.

Definition Clean (p : string) : string :=
  match p with
  | EmptyString => "."
  | String c _ =>
      let rooted := Ascii.eqb c "/" in
      let body := join "/" (rev (fold_left (clean_step rooted) (split "/" p) [])) in
      if rooted then "/" ++ body
      else if String.eqb body "" then "." else body
  end.

(** ** Reads and writes through xrdcopy and the cache directory *)

(** The cache directory's contents: the names of the files present. *)
Definition FS := list string.

Definition file_exists (fs : FS) (name : string) : bool := existsb (String.eqb name) fs.

(** os.RemoveAll of a plain file. *)
Definition remove_file (name : string) (fs : FS) : FS :=
  filter (fun n => negb (String.eqb n name)) fs.

(** The name Read gives its cache file; [uuid] is uuid.NewV4(). *)
Definition readTarget (opt : Options) (uuid : string) : string :=
  opt.(CacheDirectory) ++ "/" ++ ("eosread-" ++ uuid).

(** func (c *Client) Read(ctx, username, path string) (io.ReadCloser, error).
    [xrd] is how the xrdcopy child ends, [xrd_creates] whether it left the
    target file in the cache directory.  The handle returned is os.Open's
    *os.File, identified by its name. *)
Definition Read (passwd : list User) (opt : Options) (username path uuid : string)
  (xrd : run_result) (xrd_creates : bool) (xrd_stderr : string) (fs : FS)
  : FS * outcome string :=
  match getUnixUser passwd opt username with
  | Fail e => (fs, Fail e)
  | Panic m => (fs, Panic m)
  | Ret _ =>
      let localTarget := readTarget opt uuid in
      let fs := if xrd_creates then localTarget :: fs else fs in
      match (execute xrd "" xrd_stderr).(exec_err) with
      | Some e => (fs, Fail e)
      | None =>
          if file_exists fs localTarget then (fs, Ret localTarget)
          else (fs, Fail (OtherError ("open " ++ localTarget ++ ": no such file or directory")))
      end
  end.

(** Releasing the handle: os.File.Close closes the descriptor and leaves
    the directory entry in place. *)
Definition Close (h : string) (fs : FS) : FS := fs.

(** The name ioutil.TempFile(CacheDirectory, "eoswrite-") creates. *)
Definition writeTemp (opt : Options) (rand : string) : string :=
  opt.(CacheDirectory) ++ "/" ++ ("eoswrite-" ++ rand).

(** func (c *Client) Write(ctx, username, path string, stream io.ReadCloser) error.
    [tmp_ok]: whether TempFile succeeds; [copy_err]: the error of io.Copy
    into it; then xrdcopy pushes the file.  The deferred os.RemoveAll runs
    on every return after TempFile succeeded. *)
Definition Write (passwd : list User) (opt : Options) (username path rand : string)
  (tmp_ok : bool) (copy_err : option go_error) (xrd : run_result) (xrd_stderr : string)
  (fs : FS) : FS * outcome unit :=
  match getUnixUser passwd opt username with
  | Fail e => (fs, Fail e)
  | Panic m => (fs, Panic m)
  | Ret _ =>
      if negb tmp_ok then (fs, Fail (OtherError "open: cannot create temporary file"))
      else
        let name := writeTemp opt rand in
        let fs1 := name :: fs in
        let res := match copy_err with
                   | Some e => Fail e
                   | None => match (execute xrd "" xrd_stderr).(exec_err) with
                             | Some e => Fail e
                             | None => Ret tt
                             end
                   end in
        (remove_file name fs1, res)
  end.

End EosClient.

Definition S6_fixture : string :=
  "recycle=ls recycle-bin=/eos/backup/proc/recycle/ uid=alice gid=it size=381038 deletion-time=1510823151.0 type=file keylength.restore-path=11 restore-path=/eos/u/a a/b restore-key=000000002544fdb3".

(* ------------------------------------------------------------------ *)
(** * pkg/eosclient/eoshttp: the XrdHTTP client *)
Module EosHttp.

(** type Options struct *)
Record Options := mkOptions {
  BaseURL : string;
  ConnectTimeout : Z;
  RWTimeout : Z;
  OpTimeout : Z;
  MaxIdleConns : Z;
  MaxConnsPerHost : Z;
  MaxIdleConnsPerHost : Z;
  IdleConnTimeout : Z;
  ClientCertFile : string;
  ClientKeyFile : string;
  ClientCADirs : string;
  ClientCAFiles : string
}.

(** The operations of net/url that buildFullURL calls, over an abstract
    URL type: url.Parse, (u *URL).Parse (reference resolution), u.Query()
    (url.Values as an association list) and u.String() after
    u.RawQuery = v.Encode().  [None] is a parse error. *)
Record NetURL := mkNetURL {
  URLT : Type;
  url_Parse : string -> option URLT;
  url_ParseRef : URLT -> string -> option URLT;
  url_Query : URLT -> list (string * list string);
  url_StringWithQuery : URLT -> list (string * list string) -> string
}.

(** url.Values.Set: replace the values of a key by one value. *)
Fixpoint values_set (k v : string) (vs : list (string * list string))
  : list (string * list string) :=
  match vs with
  | [] => [(k, [v])]
  | (k', l) :: t => if String.eqb k k' then (k, [v]) :: t else (k', l) :: values_set k v t
  end.

(** The test "p1 := strings.Index(urlpath, key); p1 > 0 &&
    (urlpath[p1-1] == '&' || urlpath[p1-1] == '?')". *)
Definition injected (urlpath key : string) : outcome bool :=
  let p1 := index urlpath key in
  if 0 <? p1 then
    c <- byte_at urlpath (p1 - 1) ;;
    Ret (Ascii.eqb c "&" || Ascii.eqb c "?")
  else Ret false.

(** func (c *Client) buildFullURL(urlpath, uid, gid string) (string, error) *)
Definition buildFullURL (L : NetURL) (opt : Options) (urlpath uid gid : string)
  : outcome string :=
  match L.(url_Parse) opt.(BaseURL) with
  | None => Fail (OtherError ("parse " ++ opt.(BaseURL)))
  | Some u =>
  match L.(url_ParseRef) u urlpath with
  | None => Fail (OtherError ("parse " ++ urlpath))
  | Some u =>
      bad1 <- injected urlpath "eos.ruid" ;;
      if bad1 then Fail (PermissionDenied ("Illegal malicious url " ++ urlpath)) else
      bad2 <- injected urlpath "eos.guid" ;;
      if bad2 then Fail (PermissionDenied ("Illegal malicious url " ++ urlpath)) else
      let v := L.(url_Query) u in
      let v := if (0 <? Z.of_nat (String.length uid))%Z then values_set "eos.ruid" uid v else v in
      let v := if (0 <? Z.of_nat (String.length gid))%Z then values_set "eos.rgid" gid v else v in
      Ret (L.(url_StringWithQuery) u v)
  end
  end.

(** ** Requests, responses and the environment of the retry loops *)

(** An http.Response: status code, status line, Location header (None when
    absent or unparsable: resp.Location() fails) and body. *)
Record Response := mkResponse {
  StatusCode : Z;
  Status : string;
  Location : option string;
  Body : string
}.

(** What c.cl.Do(req) returns. *)
Record DoResult := mkDoResult {
  do_resp : option Response;
  do_err : option go_error
}.

(** One turn of a retry loop as the environment plays it: the value of
    time.Now().Unix() at the top of the turn, the result of c.cl.Do(req),
    the clock when the turn's work (Do, and the body copy of GETFile)
    returns, and the error of that copy. *)
Record Attempt := mkAttempt {
  at_now : Z;
  at_do : DoResult;
  at_done : Z;
  at_copy_err : option go_error
}.

(** The run of an operation against a finite prefix of the environment:
    the URLs of the requests sent so far, and either the return (clock and
    result) or [Pending] when the prefix ends before the function returns. *)
Inductive Run (A : Type) :=
| Pending (sent : list string)
| Returned (sent : list string) (clock : Z) (res : outcome A).
Arguments Pending {A} sent.
Arguments Returned {A} sent clock res.

(** Decimal rendering of an integer (fmt "%d", strconv.FormatInt). *)
Fixpoint digits_of (fuel : nat) (n : Z) (acc : string) : string :=
  match fuel with
  | O => acc
  | S f =>
      let d := ascii_of_nat (Z.to_nat (48 + n mod 10)) in
      if n <? 10 then String d acc else digits_of f (n / 10) (String d acc)
  end.

Definition Z_to_dec (n : Z) : string :=
  if n <? 0 then "-" ++ digits_of 64 (- n) "" else digits_of 64 n "".

(** func rspdesc(rsp *http.Response) string *)
Definition rspdesc (rsp : Response) : string :=
  let r := if String.eqb rsp.(Body) "" then "<none>" else rsp.(Body) in
  "'" ++ Z_to_dec rsp.(StatusCode) ++ "'" ++ ": '" ++ rsp.(Status) ++ "'"
  ++ " - '" ++ r ++ "'".

(** func (c *Client) getRespError(rsp *http.Response, err error) error.
    A nil response with a nil error dereferences nil. *)
Definition getRespError (rsp : option Response) (err : option go_error)
  : outcome (option go_error) :=
  match err with
  | Some e => Ret (Some e)
  | None =>
      match rsp with
      | None => Panic "nil pointer dereference"
      | Some r =>
          let sc := r.(StatusCode) in
          if Z.eqb sc 0 then Ret None
          else if Z.eqb sc 200 || Z.eqb sc 201 then Ret None
          else if Z.eqb sc 403 then Ret (Some (PermissionDenied (rspdesc r)))
          else if Z.eqb sc 404 then Ret (Some (NotFound (rspdesc r)))
          else Ret (Some (InternalError ("Err from EOS: " ++ rspdesc r)))
      end
  end.

Definition timeoutError (finalurl : string) : go_error :=
  InternalError ("Timeout with url" ++ finalurl).

Definition is_redirect_get (r : Response) : bool :=
  Z.eqb r.(StatusCode) 302 || Z.eqb r.(StatusCode) 307.

(** The for-loop of GETFile.  [curl] is the URL of the current request
    (finalurl, then the Location of the last redirect); a turn first checks
    the operation deadline, then sends the request. *)
Fixpoint getLoop (opt : Options) (finalurl curl : string) (timebegin : Z)
  (stream_given : bool) (sent : list string) (trace : list Attempt)
  : Run (option string) :=
  match trace with
  | [] => Pending sent
  | a :: rest =>
      if opt.(OpTimeout) <? a.(at_now) - timebegin
      then Returned sent a.(at_now) (Fail (timeoutError finalurl))
      else
        let sent := app sent [curl] in
        let resp := a.(at_do).(do_resp) in
        let err := a.(at_do).(do_err) in
        let after :=
          match getRespError resp err with
          | Panic m => Returned sent a.(at_done) (Panic m)
          | Fail e => Returned sent a.(at_done) (Fail e)
          | Ret (Some e) =>
              if os_IsTimeout e
              then getLoop opt finalurl curl timebegin stream_given sent rest
              else Returned sent a.(at_done) (Fail e)
          | Ret None =>
              match resp with
              | None => Returned sent a.(at_done) (Fail (NotFound ("url: " ++ finalurl)))
              | Some r =>
                  if stream_given
                  then Returned sent a.(at_done)
                         (match a.(at_copy_err) with Some e => Fail e | None => Ret None end)
                  else Returned sent a.(at_done) (Ret (Some r.(Body)))
              end
          end in
        match resp with
        | Some r =>
            if is_redirect_get r then
              match r.(Location) with
              | None => Returned sent a.(at_done)
                          (Fail (OtherError "http: no Location header in response"))
              | Some loc => getLoop opt finalurl loc timebegin stream_given sent rest
              end
            else after
        | None => after
        end
  end.

(** func (c *Client) GETFile(ctx, httptransport, remoteuser, uid, gid,
    urlpath string, stream io.WriteCloser) (io.ReadCloser, error).
    [stream_given]: whether stream is non-nil; a result [Some body] is the
    response body handed back, [None] a body copied into stream.
    [timebegin] is time.Now().Unix() before the loop. *)
Definition GETFile (L : NetURL) (opt : Options) (urlpath uid gid : string)
  (stream_given : bool) (timebegin : Z) (trace : list Attempt) : Run (option string) :=
  match buildFullURL L opt urlpath uid gid with
  | Fail e => Returned [] timebegin (Fail e)
  | Panic m => Returned [] timebegin (Panic m)
  | Ret finalurl => getLoop opt finalurl finalurl timebegin stream_given [] trace
  end.

(** The for-loop of PUTFile: it follows 307 only. *)
Fixpoint putLoop (opt : Options) (finalurl curl : string) (timebegin : Z)
  (sent : list string) (trace : list Attempt) : Run unit :=
  match trace with
  | [] => Pending sent
  | a :: rest =>
      if opt.(OpTimeout) <? a.(at_now) - timebegin
      then Returned sent a.(at_now) (Fail (timeoutError finalurl))
      else
        let sent := app sent [curl] in
        let resp := a.(at_do).(do_resp) in
        let err := a.(at_do).(do_err) in
        let after :=
          match getRespError resp err with
          | Panic m => Returned sent a.(at_done) (Panic m)
          | Fail e => Returned sent a.(at_done) (Fail e)
          | Ret (Some e) =>
              if os_IsTimeout e
              then putLoop opt finalurl curl timebegin sent rest
              else Returned sent a.(at_done) (Fail e)
          | Ret None =>
              match resp with
              | None => Returned sent a.(at_done) (Fail (NotFound ("url: " ++ finalurl)))
              | Some _ => Returned sent a.(at_done) (Ret tt)
              end
          end in
        match resp with
        | Some r =>
            if Z.eqb r.(StatusCode) 307 then
              match r.(Location) with
              | None => Returned sent a.(at_done)
                          (Fail (OtherError "http: no Location header in response"))
              | Some loc => putLoop opt finalurl loc timebegin sent rest
              end
            else after
        | None => after
        end
  end.

(** func (c *Client) PUTFile(ctx, httptransport, remoteuser, uid, gid,
    urlpath string, stream io.ReadCloser, length int64) error *)
Definition PUTFile (L : NetURL) (opt : Options) (urlpath uid gid : string)
  (timebegin : Z) (trace : list Attempt) : Run unit :=
  match buildFullURL L opt urlpath uid gid with
  | Fail e => Returned [] timebegin (Fail e)
  | Panic m => Returned [] timebegin (Panic m)
  | Ret finalurl => putLoop opt finalurl finalurl timebegin [] trace
  end.

(** The for-loop of Head: no redirect handling, and no return after a
    response that getRespError accepts (the "return nil" after the loop is
    commented out in the source). *)
Fixpoint headLoop (opt : Options) (finalurl : string) (timebegin : Z)
  (sent : list string) (trace : list Attempt) : Run unit :=
  match trace with
  | [] => Pending sent
  | a :: rest =>
      if opt.(OpTimeout) <? a.(at_now) - timebegin
      then Returned sent a.(at_now) (Fail (timeoutError finalurl))
      else
        let sent := app sent [finalurl] in
        let resp := a.(at_do).(do_resp) in
        let err := a.(at_do).(do_err) in
        match getRespError resp err with
        | Panic m => Returned sent a.(at_done) (Panic m)
        | Fail e => Returned sent a.(at_done) (Fail e)
        | Ret (Some e) =>
            if os_IsTimeout e
            then headLoop opt finalurl timebegin sent rest
            else Returned sent a.(at_done) (Fail e)
        | Ret None =>
            match resp with
            | None => Returned sent a.(at_done) (Fail (NotFound ("url: " ++ finalurl)))
            | Some _ => headLoop opt finalurl timebegin sent rest
            end
        end
  end.

(** func (c *Client) Head(ctx, remoteuser, uid, gid, urlpath string) error *)
Definition Head (L : NetURL) (opt : Options) (urlpath uid gid : string)
  (timebegin : Z) (trace : list Attempt) : Run unit :=
  match buildFullURL L opt urlpath uid gid with
  | Fail e => Returned [] timebegin (Fail e)
  | Panic m => Returned [] timebegin (Panic m)
  | Ret finalurl => headLoop opt finalurl timebegin [] trace
  end.

(** A net/url instance for concrete runs: URLs kept as text, a reference
    appended to the base, queries rendered as k=v pairs. *)
Definition render_query (v : list (string * list string)) : string :=
  join "&" (flat_map (fun kv => map (fun x => fst kv ++ "=" ++ x) (snd kv)) v).

Definition textURL : NetURL :=
  mkNetURL string (fun s => Some s) (fun b r => Some (b ++ r)) (fun _ => [])
    (fun u v => u ++ "?" ++ render_query v).

(** The defaults of Options.Init. *)
Definition defaultOptions : Options :=
  mkOptions "https://eos-example.org" 30 180 360 100 64 8 30
    "/etc/grid-security/hostcert.pem" "/etc/grid-security/hostkey.pem" "" "".

End EosHttp.

(** The S6 line as EOS prints it, with two spaces after "recycle=ls" (the
    layout of the sample lines in the comment above parseRecycleEntry). *)
Definition S6_eos_layout : string :=
  "recycle=ls  recycle-bin=/eos/backup/proc/recycle/ uid=alice gid=it size=381038 deletion-time=1510823151.0 type=file keylength.restore-path=11 restore-path=/eos/u/a a/b restore-key=000000002544fdb3".

(** Whether a byte occurs in a string. *)
Fixpoint has_char (c : ascii) (s : string) : bool :=
  match s with
  | EmptyString => false
  | String a s' => Ascii.eqb a c || has_char c s'
  end.

(* ------------------------------------------------------------------ *)
(** * More of Go's standard library: slices, map presence, paths,
    ParseUint for other bit sizes and ParseInt *)
Module GoLibMore.

(** [_, ok := m[k]]: whether a Go map has a binding for [k]. *)
Fixpoint map_has (m : smap) (k : string) : bool :=
  match m with
  | [] => false
  | (k', _) :: t => String.eqb k k' || map_has t k
  end.

(** s[lo:hi] on a string: panics unless 0 <= lo <= hi <= len(s). *)
Definition slice (s : string) (lo hi : Z) : outcome string :=
  if (0 <=? lo) && (lo <=? hi) && (hi <=? Z.of_nat (String.length s))
  then Ret (substring (Z.to_nat lo) (Z.to_nat (hi - lo)) s)
  else Panic "slice bounds out of range".

(** s[lo:] *)
Definition slice_from (s : string) (lo : Z) : outcome string :=
  slice s lo (Z.of_nat (String.length s)).

(** strings.HasPrefix(s, prefix) *)
Definition HasPrefix (s pre : string) : bool := String.prefix pre s.

(** strings.HasSuffix(s, suffix) *)
Definition HasSuffix (s suf : string) : bool :=
  (String.length suf <=? String.length s)%nat &&
  String.eqb (substring (String.length s - String.length suf) (String.length suf) s) suf.

(** strings.TrimSuffix(s, suffix) *)
Definition TrimSuffix (s suf : string) : string :=
  if HasSuffix s suf then substring 0 (String.length s - String.length suf) s else s.

(** strings.LastIndexByte(s, c): the offset of the last [c], or -1. *)
Fixpoint last_index_from (c : ascii) (s : string) (i best : Z) : Z :=
  match s with
  | EmptyString => best
  | String a s' => last_index_from c s' (i + 1) (if Ascii.eqb a c then i else best)
  end.

Definition LastIndexByte (s : string) (c : ascii) : Z := last_index_from c s 0 (-1).

(** The loop of path.Base that strips trailing slashes. *)
Fixpoint drop_slashes (l : list ascii) : list ascii :=
  match l with
  | a :: t => if Ascii.eqb a "/" then drop_slashes t else l
  | [] => []
  end.

Definition strip_trailing_slashes (s : string) : string :=
  string_of_list_ascii (rev (drop_slashes (rev (list_ascii_of_string s)))).

(** path.Base(p) *)
Definition Base (p : string) : string :=
  if String.eqb p "" then "." else
  let p := strip_trailing_slashes p in
  let i := LastIndexByte p "/" in
  let p := if 0 <=? i
           then substring (Z.to_nat (i + 1)) (String.length p - Z.to_nat (i + 1)) p
           else p in
  if String.eqb p "" then "/" else p.

(** path.Dir(p) = Clean of the directory part of path.Split(p). *)
Definition Dir (p : string) : string :=
  let i := LastIndexByte p "/" in
  EosClient.Clean (substring 0 (Z.to_nat (i + 1)) p).

(** path.Join(elem...) *)
Definition Join (elem : list string) : string :=
  let size := fold_left (fun n e => (n + String.length e)%nat) elem 0%nat in
  if (size =? 0)%nat then "" else
  let buf := fold_left (fun buf e =>
                          if (0 <? String.length buf)%nat || negb (String.eqb e "")
                          then (if (0 <? String.length buf)%nat then buf ++ "/" else buf) ++ e
                          else buf) elem "" in
  EosClient.Clean buf.

(** strconv.ParseUint(s, 10, bitSize): as [ParseUint10], with the
    largest value 2^bitSize - 1. *)
Fixpoint parse_digits_max (maxVal : Z) (s : string) (n : Z) : outcome Z :=
  match s with
  | EmptyString => Ret n
  | String c s' =>
      match digit_value c with
      | None => Fail (NumError "ParseUint" EmptyString ErrSyntax)
      | Some d =>
          if cutoff10 <=? n then Fail (NumError "ParseUint" EmptyString ErrRange)
          else let n1 := n * 10 + d in
               if maxVal <? n1 then Fail (NumError "ParseUint" EmptyString ErrRange)
               else parse_digits_max maxVal s' n1
      end
  end.

Definition ParseUintBits (bitSize : Z) (s : string) : outcome Z :=
  match s with
  | EmptyString => Fail (NumError "ParseUint" s ErrSyntax)
  | _ => match parse_digits_max (2 ^ bitSize - 1) s 0 with
         | Fail (NumError f _ e) => Fail (NumError f s e)
         | r => r
         end
  end.

(** The value ParseUint(s, 10, 64) returns next to its error: 0 on a
    syntax error, the largest uint64 on a range error.  (ParseUint10 does
    not panic.) *)
Definition ParseUint10_value (s : string) : Z * option go_error :=
  match ParseUint10 s with
  | Ret n => (n, None)
  | Fail (NumError f num ErrRange) => (maxUint64, Some (NumError f num ErrRange))
  | Fail e => (0, Some e)
  | Panic _ => (0, None)
  end.

(** strconv.ParseInt(s, 10, 64): the value and the error.  An optional
    sign, then ParseUint; out-of-range values are clamped to the int64
    bounds with a range error. *)
Definition int64_cutoff : Z := 2 ^ 63.

Definition ParseInt10 (s : string) : Z * option go_error :=
  match s with
  | EmptyString => (0, Some (NumError "ParseInt" s ErrSyntax))
  | String c rest =>
      let '(neg, u) := if Ascii.eqb c "+" then (false, rest)
                       else if Ascii.eqb c "-" then (true, rest)
                       else (false, s) in
      let '(un, err) := ParseUint10_value u in
      match err with
      | Some (NumError _ _ ErrSyntax) => (0, Some (NumError "ParseInt" s ErrSyntax))
      | Some (NumError _ _ ErrRange) | None =>
          if negb neg && (int64_cutoff <=? un)
          then (int64_cutoff - 1, Some (NumError "ParseInt" s ErrRange))
          else if neg && (int64_cutoff <? un)
          then (- int64_cutoff, Some (NumError "ParseInt" s ErrRange))
          else ((if neg then - un else un), None)
      | Some e => (0, Some e)
      end
  end.

(** Conversion of a uint64 to int64 (two's complement wrap-around). *)
Definition int64_of_uint64 (n : Z) : Z := if n <? int64_cutoff then n else n - 2 ^ 64.

(** Wrap-around of a 64-bit signed product. *)
Definition wrap64 (z : Z) : Z := (z + int64_cutoff) mod 2 ^ 64 - int64_cutoff.

End GoLibMore.
Import GoLibMore.

(* ------------------------------------------------------------------ *)
(** * pkg/eosclient: the other namespace operations *)
Module EosClientOps.
Import EosClient.

(** os/user.LookupId(uid) as the passwd reader of os/user does it: the
    uid must parse as an int (strconv.Atoi), then the first account whose
    uid field is that string. *)
Fixpoint find_uid (passwd : list User) (uid : string) : option User :=
  match passwd with
  | [] => None
  | u :: t => if String.eqb u.(Uid) uid then Some u else find_uid t uid
  end.

Definition LookupId (passwd : list User) (uid : string) : outcome User :=
  let '(i, err) := ParseInt10 uid in
  match err with
  | Some _ => Fail (OtherError ("user: invalid userid " ++ uid))
  | None => match find_uid passwd uid with
            | Some u => Ret u
            | None => Fail (OtherError ("user: unknown userid " ++ EosHttp.Z_to_dec i))
            end
  end.

(** func getUsername(uid string) (string, error) *)
Definition getUsername (passwd : list User) (uid : string) : outcome string :=
  user <- LookupId passwd uid ;; Ret user.(Username).

(** func getUID(username string) (string, error) *)
Definition getUID (passwd : list User) (username : string) : outcome string :=
  user <- Lookup passwd username ;; Ret user.(Uid).

(** An acl.Entry of pkg/storage/acl. *)
Record Entry := mkEntry {
  acl_Type : string;
  acl_Qualifier : string;
  acl_Permissions : string
}.

(** func (c *Client) ListACLs(ctx, username, path string) ([]*acl.Entry, error);
    [parsedACLs] is what getACLForPath returns. *)
Definition ListACLs (passwd : list User) (parsedACLs : outcome (list Entry))
  : outcome (list Entry) :=
  parsed <- parsedACLs ;;
  Ret (fold_left (fun acls a =>
                    match getUsername passwd a.(acl_Qualifier) with
                    | Ret name => app acls [mkEntry a.(acl_Type) name a.(acl_Permissions)]
                    | _ => acls
                    end) parsed []).

(** func (c *Client) GetACL(ctx, username, path, aclType, target string) *)
Definition GetACL (passwd : list User) (parsedACLs : outcome (list Entry))
  (aclType target : string) : outcome Entry :=
  acls <- ListACLs passwd parsedACLs ;;
  match find (fun a => String.eqb a.(acl_Type) aclType && String.eqb a.(acl_Qualifier) target)
          acls with
  | Some a => Ret a
  | None => Fail (NotFound (aclType ++ ":" ++ target))
  end.

(** The commands these operations put into NSRequest.Command (CreateDir's
    mkdir is [NSCommand]). *)
Inductive NSCmd :=
| TouchCmd (path : string)
| UnlinkCmd (path : string)
| RmdirCmd (path : string)
| ChownCmd (path : string) (owner_uid : Z)
| ChmodCmd (path : string) (mode : Z)
| XattrCmd (path : string) (xattrs : smap) (keystodelete : list string) (recursive : bool).

(** The requests sent to the MGM: the request initNSRequest built, with
    its Command set to the second component. *)
Definition Sent := list (NSRequest * NSCmd).

(** Sending [rq] with [cmd] through erpc.EosClient.Exec, whose answer is
    [reply], and the code after it: an Exec error is returned; then the
    log line reads resp.GetError().Code, which dereferences a nil Error
    (and a nil response); the "resp == nil" test after it never sees a
    nil response; the function returns the (nil) err. *)
Definition nsExec (rq : NSRequest) (cmd : NSCmd) (reply : outcome (option NSResponse))
  : Sent * outcome unit :=
  ([(rq, cmd)],
   match reply with
   | Fail e => Fail e
   | Panic m => Panic m
   | Ret None => Panic "nil pointer dereference"
   | Ret (Some resp) =>
       match resp.(resp_error) with
       | None => Panic "nil pointer dereference"
       | Some _ => Ret tt
       end
   end).

(** An early "return err" before any request is sent. *)
Definition nsWith {A} (m : outcome A) (k : A -> Sent * outcome unit) : Sent * outcome unit :=
  match m with
  | Ret a => k a
  | Fail e => ([], Fail e)
  | Panic s => ([], Panic s)
  end.

(** func (c *Client) Touch(ctx, username, path string) error *)
Definition Touch (passwd : list User) (opt : Options) (username path : string)
  (reply : outcome (option NSResponse)) : Sent * outcome unit :=
  nsWith (initNSRequest passwd opt username) (fun rq =>
  nsExec rq (TouchCmd path) reply).

(** func (c *Client) rm(ctx, username, path string) error *)
Definition rm (passwd : list User) (opt : Options) (username path : string)
  (reply : outcome (option NSResponse)) : Sent * outcome unit :=
  nsWith (initNSRequest passwd opt username) (fun rq =>
  nsExec rq (UnlinkCmd path) reply).

(** func (c *Client) rmdir(ctx, username, path string) error *)
Definition rmdir (passwd : list User) (opt : Options) (username path : string)
  (reply : outcome (option NSResponse)) : Sent * outcome unit :=
  nsWith (initNSRequest passwd opt username) (fun rq =>
  nsExec rq (RmdirCmd path) reply).

(** func (c *Client) Chown(ctx, username, chownUser, path string) error *)
Definition Chown (passwd : list User) (opt : Options) (username chownUser path : string)
  (reply : outcome (option NSResponse)) : Sent * outcome unit :=
  nsWith (initNSRequest passwd opt username) (fun rq =>
  nsWith (getUnixUser passwd opt chownUser) (fun chownunixUser =>
  nsWith (ParseUint10 chownunixUser.(Uid)) (fun owner =>
  nsExec rq (ChownCmd path owner) reply))).

(** func (c *Client) Chmod(ctx, username, mode, path string) error *)
Definition Chmod (passwd : list User) (opt : Options) (username mode path : string)
  (reply : outcome (option NSResponse)) : Sent * outcome unit :=
  nsWith (initNSRequest passwd opt username) (fun rq =>
  nsWith (ParseUint10 mode) (fun md =>
  nsExec rq (ChmodCmd path (int64_of_uint64 md)) reply)).

(** type AttrType uint32; type Attribute struct. *)
Definition SystemAttr : Z := 0.
Definition UserAttr : Z := 1.

Record Attribute := mkAttribute {
  attr_Type : Z;
  attr_Key : string;
  attr_Val : string
}.

(** func (a *Attribute) isValid() bool *)
Definition isValid (a : Attribute) : bool :=
  negb ((negb (Z.eqb a.(attr_Type) SystemAttr) && negb (Z.eqb a.(attr_Type) UserAttr))
        || String.eqb a.(attr_Key) "").

(** func (c *Client) SetAttr(ctx, username, attr, recursive, path) error *)
Definition SetAttr (passwd : list User) (opt : Options) (username : string)
  (attr : Attribute) (recursive : bool) (path : string)
  (reply : outcome (option NSResponse)) : Sent * outcome unit :=
  nsWith (initNSRequest passwd opt username) (fun rq =>
  nsExec rq (XattrCmd path [(attr.(attr_Key), attr.(attr_Val))] [] recursive) reply).

(** func (c *Client) UnsetAttr(ctx, username, attr, path) error *)
Definition UnsetAttr (passwd : list User) (opt : Options) (username : string)
  (attr : Attribute) (path : string)
  (reply : outcome (option NSResponse)) : Sent * outcome unit :=
  nsWith (initNSRequest passwd opt username) (fun rq =>
  nsExec rq (XattrCmd path [] [attr.(attr_Key)] false) reply).

(** func (c *Client) GetFileInfoByPath(ctx, username, path string).
    [md] is the result of MD followed by Recv on its stream: the error of
    either call, or the message received (possibly nil). *)
Definition GetFileInfoByPath (passwd : list User) (opt : Options) (username path : string)
  (md : outcome (option MDResponse)) : outcome FileInfo :=
  unixUser <- getUnixUser passwd opt username ;;
  _uid <- ParseUint10 unixUser.(Uid) ;;
  _gid <- ParseUint10 unixUser.(Gid) ;;
  rsp <- md ;;
  match rsp with
  | None => Fail (NotFound ("acltype" ++ ":" ++ path))
  | Some r => grpcMDResponseToFileInfo r
  end.

(** func (c *Client) Remove(ctx, username, path string) error *)
Definition Remove (passwd : list User) (opt : Options) (username path : string)
  (md : outcome (option MDResponse)) (reply : outcome (option NSResponse))
  : Sent * outcome unit :=
  nsWith (GetFileInfoByPath passwd opt username path md) (fun nfo =>
  if nfo.(fi_IsDir) then rmdir passwd opt username path reply
  else rm passwd opt username path reply).

Definition versionPrefix : string := ".sys.v#.".

(** func (c *Client) ListVersions(ctx, username, p string) ([]*FileInfo, error);
    [find] is what the Find call of List answers. *)
Definition ListVersions (passwd : list User) (opt : Options) (username p : string)
  (find : outcome FindStream) : outcome (list FileInfo) :=
  let basename := Base p in
  let versionFolder := Join [Dir p; versionPrefix ++ basename] in
  match List passwd opt username versionFolder find with
  | Fail _ => Ret []
  | r => r
  end.

End EosClientOps.

(* ------------------------------------------------------------------ *)
(** * pkg/eosclient: parsing the text output of eos find and eos quota *)
Module EosFind.

(** type FileInfo struct, with all the fields mapToFileInfo sets. *)
Record FileInfo := mkFileInfo {
  IsDir : bool;
  MTimeNanos : Z;
  Inode : Z;
  FID : Z;
  UID : Z;
  GID : Z;
  TreeSize : Z;
  MTimeSec : Z;
  Size : Z;
  TreeCount : Z;
  File : string;
  ETag : string;
  Instance : string;
  SysACL : string;
  Attrs : smap
}.

(** A counter that is only present for containers: parsed when the key
    is there, 0 otherwise. *)
Definition parse_if_present (kv : smap) (k : string) : outcome Z :=
  if map_has kv k then ParseUint10 (map_get kv k) else Ret 0.

(** func (c *Client) mapToFileInfo(kv map[string]string) (FileInfo pointer, error);
    mtime[1] indexes the result of strings.Split, which panics when the
    mtime has no '.'. *)
Definition mapToFileInfo (opt : EosClient.Options) (kv : smap) : outcome FileInfo :=
  inode <- ParseUint10 (map_get kv "ino") ;;
  fid <- ParseUint10 (map_get kv "fid") ;;
  uid <- ParseUint10 (map_get kv "uid") ;;
  gid <- ParseUint10 (map_get kv "gid") ;;
  treeSize <- parse_if_present kv "treesize" ;;
  fileCounter <- parse_if_present kv "files" ;;
  dirCounter <- parse_if_present kv "container" ;;
  let treeCount := (fileCounter + dirCounter) mod 2 ^ 64 in
  size <- parse_if_present kv "size" ;;
  let mtime := split "." (map_get kv "mtime") in
  mtimesec <- ParseUint10 (nth 0 mtime "") ;;
  mtime1 <- match nth_error mtime 1 with
            | Some x => Ret x
            | None => Panic "index out of range"
            end ;;
  mtimenanos <- ParseUintBits 32 mtime1 ;;
  let isDir := map_has kv "files" in
  Ret (mkFileInfo isDir mtimenanos inode fid uid gid treeSize mtimesec size treeCount
         (map_get kv "file") (map_get kv "etag") opt.(EosClient.URL) (map_get kv "sys.acl") kv).

(** The loop of parseFileInfo over the space-separated tokens after the
    file name: xattrn=k sets the pending attribute name, xattrv=v stores
    it, any other k=v is stored; tokens that do not split into exactly
    two parts on '=' are skipped. *)
Fixpoint kv_loop (parts : list string) (previousXAttr : string) (kv : smap) : smap :=
  match parts with
  | [] => kv
  | p :: t =>
      match split "=" p with
      | [k; v] =>
          if String.eqb k "xattrn" then kv_loop t v kv
          else if String.eqb k "xattrv" then kv_loop t "" (map_set previousXAttr v kv)
          else kv_loop t previousXAttr (map_set k v kv)
      | _ => kv_loop t previousXAttr kv
      end
  end.

(** func (c *Client) parseFileInfo(raw string) (FileInfo pointer, error) *)
Definition parseFileInfo (opt : EosClient.Options) (raw : string) : outcome FileInfo :=
  line <- slice_from raw 15 ;;
  let index := GoLib.index line " file=/" in
  lengthString <- slice line 0 index ;;
  length <- ParseUint10 lengthString ;;
  line <- slice_from line (index + 6) ;;
  name <- slice line 0 length ;;
  let kv := map_set "file" (TrimSuffix name "/") [] in
  line <- slice_from line (length + 1) ;;
  mapToFileInfo opt (kv_loop (split " " line) "" kv).

(** func (c *Client) parseFind(dirPath, raw string) ([]*FileInfo, error) *)
Fixpoint parseFindLines (opt : EosClient.Options) (dirPath : string) (rawLines : list string)
  : outcome (list FileInfo) :=
  match rawLines with
  | [] => Ret []
  | rl :: t =>
      if String.eqb rl "" then parseFindLines opt dirPath t
      else fi <- parseFileInfo opt rl ;;
           if String.eqb fi.(File) (EosClient.Clean dirPath) then parseFindLines opt dirPath t
           else finfos <- parseFindLines opt dirPath t ;;
                Ret (fi :: finfos)
  end.

Definition parseFind (opt : EosClient.Options) (dirPath raw : string) : outcome (list FileInfo) :=
  parseFindLines opt dirPath (split EosClient.newline raw).

(** func (c Client) parseQuotaLine(line string) map[string]string *)
Definition parseQuotaLine (line : string) : smap := EosClient.getMap (split " " line).

(** func (c *Client) parseQuota(path, raw string) (int, int, error); the
    errors of ParseInt are dropped, its value kept. *)
Fixpoint parseQuotaLines (path : string) (rawLines : list string) : Z * Z * option go_error :=
  match rawLines with
  | [] => (0, 0, None)
  | rl :: t =>
      if String.eqb rl "" then parseQuotaLines path t
      else
        let m := parseQuotaLine rl in
        let space := map_get m "space" in
        if HasPrefix path space
        then (fst (ParseInt10 (map_get m "maxlogicalbytes")),
              fst (ParseInt10 (map_get m "usedlogicalbytes")), None)
        else parseQuotaLines path t
  end.

Definition parseQuota (path raw : string) : Z * Z * option go_error :=
  parseQuotaLines path (split EosClient.newline raw).

End EosFind.

(* ------------------------------------------------------------------ *)
(** * pkg/eosclient/eoshttp: Options.Init *)
Module EosHttpInit.
Import EosHttp.

(** The fields of the http.Transport that Init builds (the TLS
    configuration holds the loaded key pair). *)
Record Transport := mkTransport {
  tr_MaxIdleConns : Z;
  tr_MaxConnsPerHost : Z;
  tr_MaxIdleConnsPerHost : Z;
  tr_IdleConnTimeout : Z;   (* a time.Duration, in nanoseconds *)
  tr_DisableCompression : bool
}.

(** The option fields after the defaulting part of Init. *)
Definition init_fields (opt : Options) : Options :=
  mkOptions
    (if String.eqb opt.(BaseURL) "" then "https://eos-example.org" else opt.(BaseURL))
    (if Z.eqb opt.(ConnectTimeout) 0 then 30 else opt.(ConnectTimeout))
    (if Z.eqb opt.(RWTimeout) 0 then 180 else opt.(RWTimeout))
    (if Z.eqb opt.(OpTimeout) 0 then 360 else opt.(OpTimeout))
    (if Z.eqb opt.(MaxIdleConns) 0 then 100 else opt.(MaxIdleConns))
    (if Z.eqb opt.(MaxConnsPerHost) 0 then 64 else opt.(MaxConnsPerHost))
    (if Z.eqb opt.(MaxIdleConnsPerHost) 0 then 8 else opt.(MaxIdleConnsPerHost))
    (if Z.eqb opt.(IdleConnTimeout) 0 then 30 else opt.(IdleConnTimeout))
    (if String.eqb opt.(ClientCertFile) "" then "/etc/grid-security/hostcert.pem"
     else opt.(ClientCertFile))
    (if String.eqb opt.(ClientKeyFile) "" then "/etc/grid-security/hostkey.pem"
     else opt.(ClientKeyFile))
    opt.(ClientCADirs) opt.(ClientCAFiles).

(** func (opt *Options) Init() (http.Transport pointer, error).  The result is
    the updated options, the os.Setenv calls made (in order) and the
    transport or error; [loadKeyPair] is tls.LoadX509KeyPair. *)
Definition Init (loadKeyPair : string -> string -> option go_error) (opt : Options)
  : Options * list (string * string) * outcome Transport :=
  let opt := init_fields opt in
  let env := app (if String.eqb opt.(ClientCAFiles) "" then []
                  else [("SSL_CERT_FILE", opt.(ClientCAFiles))])
                 [("SSL_CERT_DIR", if String.eqb opt.(ClientCADirs) "" then
                                     "/etc/grid-security/certificates"
                                   else opt.(ClientCADirs))] in
  match loadKeyPair opt.(ClientCertFile) opt.(ClientKeyFile) with
  | Some e => (opt, env, Fail e)
  | None =>
      (opt, env, Ret (mkTransport opt.(MaxIdleConns) opt.(MaxConnsPerHost)
                        opt.(MaxIdleConnsPerHost)
                        (wrap64 (opt.(IdleConnTimeout) * 1000000000)) true))
  end.

End EosHttpInit.

(* ------------------------------------------------------------------ *)
(** * pkg/siteacc/alerting: the alert dispatcher *)
Module Alerting.

(** The fields of data.Account the dispatcher reads (Settings.ReceiveAlerts
    flattened). *)
Record Account := mkAccount {
  Email : string;
  Site : string;
  ReceiveAlerts : bool
}.

(** template.Alert; StartsAt and EndsAt as their String() renderings. *)
Record Alert := mkAlert {
  Status : string;
  StartsAt : string;
  EndsAt : string;
  Fingerprint : string;
  Labels : smap;
  Annotations : smap
}.

(** A call of email.SendAlertNotification: account, recipients, values. *)
Record Notification := mkNotification {
  n_account : Account;
  n_recipients : list string;
  n_values : smap
}.

(** The alertValues map built by dispatchAlert. *)
Definition alertValues (alert : Alert) : smap :=
  [("Status", alert.(Status)); ("StartDate", alert.(StartsAt));
   ("EndDate", alert.(EndsAt)); ("Fingerprint", alert.(Fingerprint));
   ("Name", map_get alert.(Labels) "alertname");
   ("Instance", map_get alert.(Labels) "instance");
   ("Job", map_get alert.(Labels) "job");
   ("Severity", map_get alert.(Labels) "severity");
   ("Site", map_get alert.(Labels) "site");
   ("SiteID", map_get alert.(Labels) "site_id");
   ("Description", map_get alert.(Annotations) "description");
   ("Summary", map_get alert.(Annotations) "summary")].

Section Dispatch.
(** strings.EqualFold (Unicode simple case folding), the mail sender, and
    conf.Email.NotificationsMail. *)
Variable EqualFold : string -> string -> bool.
Variable SendAlertNotification : Notification -> option go_error.
Variable notificationsMail : string.

(** func (dispatcher *Dispatcher) dispatchAlert(alert, account) error *)
Definition dispatchAlert (alert : Alert) (account : Account) : Notification * option go_error :=
  let n := mkNotification account [account.(Email); notificationsMail] (alertValues alert) in
  (n, SendAlertNotification n).

(** func (dispatcher *Dispatcher) DispatchAlerts(alerts, accounts) error.
    The result: the notifications sent, the (fingerprint, recipient) log
    lines of the failed ones, and the returned error. *)
Definition dispatch_account (alert : Alert) (siteID : string)
  (st : list Notification * list (string * string)) (account : Account)
  : list Notification * list (string * string) :=
  if EqualFold account.(Site) siteID && account.(ReceiveAlerts) then
    let '(n, err) := dispatchAlert alert account in
    (app (fst st) [n],
     match err with
     | Some _ => app (snd st) [(alert.(Fingerprint), account.(Email))]
     | None => snd st
     end)
  else st.

Definition DispatchAlerts (alerts : list Alert) (accounts : list Account)
  : list Notification * list (string * string) * option go_error :=
  let '(sent, logged) :=
    fold_left (fun st alert =>
                 if map_has alert.(Labels) "site_id"
                 then fold_left (dispatch_account alert (map_get alert.(Labels) "site_id"))
                        accounts st
                 else st) alerts ([], []) in
  (sent, logged, None).

End Dispatch.

End Alerting.

(* ================================================================== *)
(** * Properties *)

Module StringFacts.

Lemma split_no_char (c : ascii) (s : string) :
  has_char c s = false -> split c s = [s].
Proof.
  induction s as [|a s IH]; simpl; [reflexivity|].
  intros H. apply orb_false_iff in H as [Ha Hs].
  rewrite Ha, (IH Hs). reflexivity.
Qed.

Lemma split_app_sep (c : ascii) (s1 s2 : string) :
  has_char c s1 = false -> split c (s1 ++ String c s2) = s1 :: split c s2.
Proof.
  induction s1 as [|a s1 IH]; simpl; intros H.
  - rewrite Ascii.eqb_refl. reflexivity.
  - apply orb_false_iff in H as [Ha Hs].
    rewrite Ha, (IH Hs). reflexivity.
Qed.

Lemma has_char_app (c : ascii) (s1 s2 : string) :
  has_char c (s1 ++ s2) = has_char c s1 || has_char c s2.
Proof.
  induction s1 as [|a s1 IH]; simpl; [reflexivity|].
  rewrite IH, orb_assoc. reflexivity.
Qed.

Lemma string_app_assoc (a b d : string) : (a ++ b) ++ d = a ++ (b ++ d).
Proof. induction a as [|x a IH]; simpl; [reflexivity|]. rewrite IH. reflexivity. Qed.

Lemma join_cons_app (sep a b : string) (l : list string) :
  join sep ((a ++ b) :: l) = a ++ join sep (b :: l).
Proof.
  destruct l as [|y l]; simpl; [reflexivity|].
  apply string_app_assoc.
Qed.

Lemma has_char_join (c : ascii) (sep : string) (l : list string) :
  has_char c sep = false -> Forall (fun t => has_char c t = false) l ->
  has_char c (join sep l) = false.
Proof.
  intros Hsep Hl. induction Hl as [|x l Hx Hl IH]; [reflexivity|].
  destruct l as [|y l]; [exact Hx|].
  change (join sep (x :: y :: l)) with (x ++ sep ++ join sep (y :: l)).
  rewrite !has_char_app, Hx, Hsep, IH. reflexivity.
Qed.

Lemma map_get_set (k v : string) (m : smap) (k' : string) :
  map_get (map_set k v m) k' = if String.eqb k' k then v else map_get m k'.
Proof.
  induction m as [|[k0 v0] m IH]; simpl.
  - reflexivity.
  - destruct (String.eqb k k0) eqn:E; simpl.
    + apply String.eqb_eq in E; subst k0. destruct (String.eqb k' k); reflexivity.
    + destruct (String.eqb k' k0) eqn:E'.
      * apply String.eqb_eq in E'; subst k0.
        destruct (String.eqb k' k) eqn:E''; [|reflexivity].
        apply String.eqb_eq in E''; subst. rewrite String.eqb_refl in E. discriminate.
      * exact IH.
Qed.

End StringFacts.

Module RecycleFacts.
Import EosClient StringFacts.

Lemma getMap_app (l : list string) (x : string) :
  getMap (app l [x]) =
  match split "=" x with
  | k :: v :: _ => map_set k v (getMap l)
  | _ => getMap l
  end.
Proof. unfold getMap. rewrite fold_left_app. reflexivity. Qed.

(** The restore-path pair is the run of tokens from position 9 up to the
    last one, rejoined with single spaces; the last token is the
    restore-key pair. *)
Lemma parseRecycleEntry_restore_fields (raw : string) (pre ps : list string)
  (p key : string) (e : DeletedEntry) :
  split " " raw = app pre (("restore-path=" ++ p) :: app ps ["restore-key=" ++ key]) ->
  length pre = 9%nat ->
  has_char "=" p = false ->
  Forall (fun t => has_char "=" t = false) ps ->
  has_char "=" key = false ->
  parseRecycleEntry raw = Ret e ->
  RestorePath e = join " " (p :: ps) /\ RestoreKey e = key.
Proof.
  intros Hsplit Hlen Hp Hps Hkey Hparse.
  unfold parseRecycleEntry in Hparse. rewrite Hsplit in Hparse.
  set (x := "restore-path=" ++ p) in *.
  set (k := "restore-key=" ++ key) in *.
  assert (Hl : app pre (x :: app ps [k]) = app (app pre (x :: ps)) [k])
    by (rewrite <- app_assoc; reflexivity).
  rewrite Hl, last_last, removelast_last in Hparse.
  assert (Hge : (length (app pre (x :: ps)) <? 9)%nat = false).
  { apply Nat.ltb_ge. rewrite length_app, Hlen. simpl. lia. }
  rewrite Hge in Hparse.
  assert (Hf : firstn 9 (app pre (x :: ps)) = pre).
  { rewrite <- Hlen, firstn_app, firstn_all, Nat.sub_diag, firstn_O, app_nil_r.
    reflexivity. }
  assert (Hs : skipn 9 (app pre (x :: ps)) = x :: ps).
  { rewrite <- Hlen, skipn_app, skipn_all, Nat.sub_diag, skipn_O. reflexivity. }
  rewrite Hf, Hs in Hparse.
  assert (Hx : join " " (x :: ps) = "restore-path" ++ String "=" (join " " (p :: ps))).
  { unfold x. rewrite join_cons_app. reflexivity. }
  assert (Hnoeq : has_char "=" (join " " (p :: ps)) = false).
  { apply has_char_join; [reflexivity|]. constructor; assumption. }
  assert (Hsx : split "=" (join " " (x :: ps)) = ["restore-path"; join " " (p :: ps)]).
  { rewrite Hx, split_app_sep by reflexivity. rewrite split_no_char by exact Hnoeq.
    reflexivity. }
  assert (Hsk : split "=" k = ["restore-key"; key]).
  { unfold k. change ("restore-key=" ++ key) with ("restore-key" ++ String "=" key).
    rewrite split_app_sep by reflexivity. rewrite split_no_char by exact Hkey.
    reflexivity. }
  change [join " " (x :: ps); k] with (app [join " " (x :: ps)] [k]) in Hparse.
  rewrite app_assoc, getMap_app, getMap_app, Hsk, Hsx in Hparse.
  destruct (ParseUint10 _) as [size| |]; simpl in Hparse; try discriminate.
  destruct (ParseUint10 _) as [dm| |]; simpl in Hparse; try discriminate.
  injection Hparse as <-. simpl.
  rewrite !map_get_set. simpl. split; reflexivity.
Qed.

(** C2 (amended): parseRecycleEntry splits on single spaces, takes the last
    token as the restore-key pair and rejoins tokens 9 .. n-2 with single
    spaces into the restore-path pair before key/value splitting.  On the
    literal S6 line (one space after "recycle=ls") token 9 is "a/b", so the
    single entry has restore path "/eos/u/a"; on the same line in the EOS
    layout (two spaces after "recycle=ls") the path "/eos/u/a a/b" is
    recovered.  Key 000000002544fdb3, size 381038, deletion time 1510823151
    and is_dir false in both. *)
Theorem parseRecycleEntry_restore_path_rejoin :
  (forall (raw : string) (pre ps : list string) (p key : string) (e : DeletedEntry),
     split " " raw = app pre (("restore-path=" ++ p) :: app ps ["restore-key=" ++ key]) ->
     length pre = 9%nat ->
     has_char "=" p = false ->
     Forall (fun t => has_char "=" t = false) ps ->
     has_char "=" key = false ->
     parseRecycleEntry raw = Ret e ->
     RestorePath e = join " " (p :: ps) /\ RestoreKey e = key) /\
  parseRecycleList S6_fixture =
    Ret [mkDeletedEntry "/eos/u/a" "000000002544fdb3" 381038 1510823151 false] /\
  parseRecycleList S6_eos_layout =
    Ret [mkDeletedEntry "/eos/u/a a/b" "000000002544fdb3" 381038 1510823151 false].
Proof.
  split; [exact parseRecycleEntry_restore_fields|].
  split; vm_compute; reflexivity.
Qed.

(** The general part of the theorem, instantiated on the EOS-layout line. *)
Lemma parseRecycleEntry_restore_path_rejoin_witness :
  RestorePath (mkDeletedEntry "/eos/u/a a/b" "000000002544fdb3" 381038 1510823151 false)
    = join " " ["/eos/u/a"; "a/b"] /\
  RestoreKey (mkDeletedEntry "/eos/u/a a/b" "000000002544fdb3" 381038 1510823151 false)
    = "000000002544fdb3".
Proof.
  destruct parseRecycleEntry_restore_path_rejoin as [H _].
  apply (H S6_eos_layout
           ["recycle=ls"; ""; "recycle-bin=/eos/backup/proc/recycle/"; "uid=alice";
            "gid=it"; "size=381038"; "deletion-time=1510823151.0"; "type=file";
            "keylength.restore-path=11"]
           ["a/b"] "/eos/u/a" "000000002544fdb3").
  - vm_compute. reflexivity.
  - reflexivity.
  - reflexivity.
  - repeat constructor.
  - reflexivity.
  - vm_compute. reflexivity.
Defined.

(** C2 as stated fails: on the literal S6 line the entry's restore path is
    "/eos/u/a", not "/eos/u/a a/b". *)
Lemma list_deleted_S6_counterexample :
  parseRecycleList S6_fixture <>
    Ret [mkDeletedEntry "/eos/u/a a/b" "000000002544fdb3" 381038 1510823151 false].
Proof. intro H. vm_compute in H. inversion H. Qed.

End RecycleFacts.

Module EosClientFacts.
Import EosClient.

(** Options with single-user mode on and no single username configured. *)
Definition single_user_unset : Options :=
  mkOptions true false "" "" "" "" "" "" "" "" "".

(** Options with single-user mode on and single username "bob". *)
Definition single_user_bob : Options :=
  mkOptions true false "bob" "" "" "" "" "" "" "" "".

Lemma init_ForceSingleUserMode (tmp : string) (o : Options) :
  ForceSingleUserMode (init tmp o) = ForceSingleUserMode o.
Proof.
  unfold init.
  destruct (ForceSingleUserMode o && negb (SingleUsername o =? "")%string);
  repeat match goal with |- context [if ?c then _ else _] => destruct c end;
  reflexivity.
Qed.

(** In single-user mode the lookup name does not depend on the input. *)
Lemma unixUserName_single_user (tmp : string) (o : Options) (a b : string) :
  ForceSingleUserMode o = true ->
  unixUserName (init tmp o) a = unixUserName (init tmp o) b.
Proof.
  intros H. unfold unixUserName. rewrite init_ForceSingleUserMode, H. reflexivity.
Qed.

(** C5 (code_bug): with single-user mode on and no single username
    configured, init leaves the single username empty, so every lookup is
    for "" (not "apache") and fails on a passwd database holding apache;
    a configured single username is instead replaced by "apache". *)
Theorem single_user_default_not_apache (username : string) :
  unixUserName (init "/tmp" single_user_unset) username = "" /\
  getUnixUser [mkUser "apache" "48" "48"] (init "/tmp" single_user_unset) username
    = Fail (OtherError "user: unknown user ") /\
  unixUserName (init "/tmp" single_user_bob) username = "apache".
Proof. split; [|split]; reflexivity. Qed.

(** C4 (code_bug): strconv.ParseUint("0o750", 10, 64) is a syntax error,
    so CreateDir never sends a mkdir request: it returns that error (or
    the error of initNSRequest). *)
Theorem CreateDir_never_sends_mkdir (passwd : list User) (opt : Options)
  (username path : string) (reply : outcome (option NSResponse)) :
  CreateDir passwd opt username path reply =
    ([], match initNSRequest passwd opt username with
         | Ret _ => Fail (NumError "ParseUint" "0o750" ErrSyntax)
         | Fail e => Fail e
         | Panic m => Panic m
         end).
Proof. unfold CreateDir. destruct (initNSRequest passwd opt username); reflexivity. Qed.

(** C6 (code_bug): Rename fails with NotFound, while GetQuota, the other
    stub, fails with NotSupported (reva's Unimplemented kind). *)
Theorem Rename_is_NotFound (username oldPath newPath path : string) :
  Rename username oldPath newPath = Fail (NotFound ("acltype:" ++ newPath)) /\
  is_not_supported (NotFound ("acltype:" ++ newPath)) = false /\
  GetQuota username path = Fail (NotSupported ("acltype:" ++ path)).
Proof. split; [|split]; reflexivity. Qed.

(** C7 (amended): exit status 0 is success and 2 an unwrapped NotFound
    carrying stderr, for execute and executeEOS alike; 22 becomes a
    PermissionDenied (wrapped by errors.Wrap) only in executeEOS; execute
    wraps the *exec.ExitError of every other status, 22 included. *)
Theorem child_exit_status_mapping (stdout stderr : string) :
  exec_err (execute (Exited 0) stdout stderr) = None /\
  exec_err (executeEOS (Exited 0) stdout stderr) = None /\
  exec_err (execute (Exited 2) stdout stderr) = Some (NotFound stderr) /\
  exec_err (executeEOS (Exited 2) stdout stderr) = Some (NotFound stderr) /\
  exec_err (executeEOS (Exited 22) stdout stderr)
    = Some (Wrapped wrap_msg (PermissionDenied stderr)) /\
  is_permission_denied (Wrapped wrap_msg (PermissionDenied stderr)) = true /\
  (forall s : Z, s <> 0 -> s <> 2 ->
     exec_err (execute (Exited s) stdout stderr) = Some (Wrapped wrap_msg (ExitError s))).
Proof.
  repeat split; try reflexivity.
  intros s H0 H2.
  assert (E0 : Z.eqb s 0 = false) by (apply Z.eqb_neq; exact H0).
  assert (E2 : Z.eqb s 2 = false) by (apply Z.eqb_neq; exact H2).
  unfold execute, run_error, exit_status_of.
  destruct s as [|p|p]; [congruence| |]; cbn -[Z.eqb]; rewrite E0, E2; reflexivity.
Qed.

Lemma child_exit_status_mapping_witness :
  exec_err (execute (Exited 22) "" "denied") = Some (Wrapped wrap_msg (ExitError 22)).
Proof.
  destruct (child_exit_status_mapping "" "denied") as (_ & _ & _ & _ & _ & _ & H).
  apply H; discriminate.
Defined.

(** C7 as stated fails: xrdcopy's exit status 22, through execute, is not
    a PermissionDenied. *)
Lemma execute_exit22_counterexample :
  ~ (forall stdout stderr : string,
       match exec_err (execute (Exited 22) stdout stderr) with
       | Some e => is_permission_denied e = true
       | None => False
       end).
Proof. intros H. specialize (H "" ""). vm_compute in H. discriminate H. Qed.

End EosClientFacts.

Module ListFacts.
Import EosClient.

(** The Find stream that delivers the responses [rs] and then ends as
    [tail] does. *)
Fixpoint stream_of (rs : list MDResponse) (tail : FindStream) : FindStream :=
  match rs with
  | [] => tail
  | r :: rs' => SCons (Some r) (stream_of rs' tail)
  end.

Lemma recvLoop_prefix (path : string) (s : FindStream) (acc l : list FileInfo) :
  recvLoop path s acc = Ret l -> exists suf, l = app acc suf.
Proof.
  revert acc. induction s as [[e|]|[rsp|] rest IH]; intros acc H; simpl in H.
  - discriminate.
  - injection H as <-. exists []. rewrite app_nil_r. reflexivity.
  - destruct (grpcMDResponseToFileInfo rsp) as [fi| |]; simpl in H; try discriminate.
    destruct (IH _ H) as [suf ->]. exists (fi :: suf). rewrite <- app_assoc. reflexivity.
  - discriminate.
Qed.

Lemma recvLoop_keeps (path : string) (rs : list MDResponse) (tail : FindStream)
  (acc l : list FileInfo) (rsp : MDResponse) (fi : FileInfo) :
  In rsp rs -> grpcMDResponseToFileInfo rsp = Ret fi ->
  recvLoop path (stream_of rs tail) acc = Ret l -> In fi l.
Proof.
  revert acc. induction rs as [|r rs IH]; intros acc Hin Hconv H; [destruct Hin|].
  simpl in H. destruct (grpcMDResponseToFileInfo r) as [fi'| |] eqn:Er;
    simpl in H; try discriminate.
  destruct Hin as [<-|Hin].
  - rewrite Hconv in Er. injection Er as <-.
    destruct (recvLoop_prefix _ _ _ _ H) as [suf ->].
    apply in_or_app. left. apply in_or_app. right. left. reflexivity.
  - exact (IH _ Hin Hconv H).
Qed.

(** C3 (code_bug): List filters nothing: every entry the backend streams
    back is in the result, the one named clean(path) included. *)
Theorem List_keeps_every_entry (passwd : list User) (opt : Options)
  (username path : string) (rs : list MDResponse) (tail : FindStream)
  (rsp : MDResponse) (fi : FileInfo) (l : list FileInfo) :
  In rsp rs ->
  grpcMDResponseToFileInfo rsp = Ret fi ->
  List passwd opt username path (Ret (stream_of rs tail)) = Ret l ->
  In fi l.
Proof.
  intros Hin Hconv H. unfold List in H.
  destruct (getUnixUser passwd opt username) as [u| |]; simpl in H; try discriminate.
  destruct (ParseUint10 (Uid u)); simpl in H; try discriminate.
  destruct (ParseUint10 (Gid u)); simpl in H; try discriminate.
  exact (recvLoop_keeps _ _ _ _ _ _ _ Hin Hconv H).
Qed.

(** Scenario S2: listing "/eos/u/alice/" while the backend streams the
    directory itself (as "/eos/u/alice") and two children. *)
Definition alice : User := mkUser "alice" "1001" "1001".

Definition alice_opt : Options :=
  mkOptions false false "" "/usr/bin/eos" "/usr/bin/xrdcopy" "root://eos-example.org"
    "localhost:50051" "/tmp" "" "" "".

Definition dir_md (name : string) : MDResponse :=
  mkMDResponse 1 None (Some (mkMDFields 7 1001 1001 (Some 1700000000) name [] 0)).

Definition S2_stream : list MDResponse :=
  [dir_md "/eos/u/alice"; dir_md "/eos/u/alice/a"; dir_md "/eos/u/alice/b"].

Definition S2_parent : FileInfo :=
  mkFileInfo true 7 1001 1001 1700000000 0 "/eos/u/alice" "" [].

Lemma List_keeps_every_entry_witness :
  fi_File S2_parent = Clean "/eos/u/alice/" /\
  In S2_parent
     [S2_parent; mkFileInfo true 7 1001 1001 1700000000 0 "/eos/u/alice/a" "" [];
      mkFileInfo true 7 1001 1001 1700000000 0 "/eos/u/alice/b" "" []].
Proof.
  split; [vm_compute; reflexivity|].
  apply (List_keeps_every_entry [alice] alice_opt "alice" "/eos/u/alice/"
           S2_stream (SEnd None) (dir_md "/eos/u/alice")).
  - left. reflexivity.
  - vm_compute. reflexivity.
  - vm_compute. reflexivity.
Defined.

End ListFacts.

Module CacheFacts.
Import EosClient.

Lemma remove_file_gone (name : string) (fs : FS) :
  file_exists (remove_file name fs) name = false.
Proof.
  induction fs as [|n fs IH]; [reflexivity|]. simpl.
  destruct (String.eqb n name) eqn:E; simpl; [exact IH|].
  rewrite String.eqb_sym, E. exact IH.
Qed.

(** Write removes its eoswrite- temporary on every return after creating
    it, whatever the copy and xrdcopy do. *)
Lemma Write_removes_temp (passwd : list User) (opt : Options)
  (username path rand : string) (tmp_ok : bool) (copy_err : option go_error)
  (xrd : run_result) (xrd_stderr : string) (fs : FS) :
  file_exists fs (writeTemp opt rand) = false ->
  file_exists (fst (Write passwd opt username path rand tmp_ok copy_err xrd xrd_stderr fs))
    (writeTemp opt rand) = false.
Proof.
  intros H. unfold Write.
  destruct (getUnixUser passwd opt username); [|exact H|exact H].
  destruct tmp_ok; [apply remove_file_gone|exact H].
Qed.

(** C8 (code_bug): after a successful Read and the release of its handle
    the eosread- cache file is still in the cache directory: the handle is
    a plain os.File and nothing deletes the file. *)
Theorem Read_release_keeps_cache_file (passwd : list User) (opt : Options)
  (username path uuid xrd_stderr : string) (fs : FS) (u : User) :
  getUnixUser passwd opt username = Ret u ->
  let '(fs1, r) := Read passwd opt username path uuid (Exited 0) true xrd_stderr fs in
  r = Ret (readTarget opt uuid) /\
  file_exists (Close (readTarget opt uuid) fs1) (readTarget opt uuid) = true.
Proof.
  intros H. unfold Read. rewrite H. simpl.
  rewrite String.eqb_refl. simpl. rewrite String.eqb_refl. split; reflexivity.
Qed.

Lemma Read_release_keeps_cache_file_witness :
  getUnixUser [ListFacts.alice] ListFacts.alice_opt "alice" = Ret ListFacts.alice /\
  file_exists (Close "/tmp/eosread-6ba7b810-9dad-11d1-80b4-00c04fd430c8"
                 ["/tmp/eosread-6ba7b810-9dad-11d1-80b4-00c04fd430c8"])
    "/tmp/eosread-6ba7b810-9dad-11d1-80b4-00c04fd430c8" = true.
Proof.
  split; [reflexivity|].
  pose proof (Read_release_keeps_cache_file [ListFacts.alice] ListFacts.alice_opt
                "alice" "/eos/u/alice/f" "6ba7b810-9dad-11d1-80b4-00c04fd430c8" "" []
                ListFacts.alice eq_refl) as H.
  exact (proj2 H).
Defined.

End CacheFacts.

Module HttpFacts.
Import EosHttp.

Definition sent_of {A} (r : Run A) : list string :=
  match r with
  | Pending s => s
  | Returned s _ _ => s
  end.

Lemma getLoop_sent_prefix (opt : Options) (finalurl curl : string) (timebegin : Z)
  (stream_given : bool) (sent : list string) (trace : list Attempt) :
  exists more, sent_of (getLoop opt finalurl curl timebegin stream_given sent trace)
               = app sent more.
Proof.
  revert curl sent. induction trace as [|a rest IH]; intros curl sent; simpl.
  - exists []. rewrite app_nil_r. reflexivity.
  - destruct (OpTimeout opt <? at_now a - timebegin).
    { exists []. rewrite app_nil_r. reflexivity. }
    assert (Hstep : forall c, exists more,
               sent_of (getLoop opt finalurl c timebegin stream_given (app sent [curl]) rest)
               = app sent more).
    { intros c. destruct (IH c (app sent [curl])) as [m Hm].
      exists (curl :: m). rewrite Hm, <- app_assoc. reflexivity. }
    assert (Hret : forall t (r : outcome (option string)),
               exists more, sent_of (Returned (app sent [curl]) t r) = app sent more).
    { intros t r. exists [curl]. reflexivity. }
    destruct (do_resp (at_do a)) as [r|] eqn:Er.
    + destruct (is_redirect_get r).
      * destruct (Location r); [apply Hstep|apply Hret].
      * destruct (getRespError (Some r) (do_err (at_do a))) as [[e|]| |];
          try apply Hret.
        -- destruct (os_IsTimeout e); [apply Hstep|apply Hret].
        -- destruct stream_given; apply Hret.
    + destruct (getRespError None (do_err (at_do a))) as [[e|]| |]; try apply Hret.
      destruct (os_IsTimeout e); [apply Hstep|apply Hret].
Qed.

(** A turn that passes the deadline check sends the current request. *)
Lemma getLoop_sends_first (opt : Options) (finalurl curl : string) (timebegin : Z)
  (stream_given : bool) (sent : list string) (a : Attempt) (rest : list Attempt) :
  at_now a - timebegin <= OpTimeout opt ->
  exists more, sent_of (getLoop opt finalurl curl timebegin stream_given sent (a :: rest))
               = app sent (curl :: more).
Proof.
  intros Ht. simpl.
  assert (Hlt : (OpTimeout opt <? at_now a - timebegin) = false) by (apply Z.ltb_ge; lia).
  rewrite Hlt.
  assert (Hstep : forall c, exists more,
             sent_of (getLoop opt finalurl c timebegin stream_given (app sent [curl]) rest)
             = app sent (curl :: more)).
  { intros c. destruct (getLoop_sent_prefix opt finalurl c timebegin stream_given
                          (app sent [curl]) rest) as [m Hm].
    exists m. rewrite Hm, <- app_assoc. reflexivity. }
  assert (Hret : forall t (r : outcome (option string)),
             exists more, sent_of (Returned (app sent [curl]) t r) = app sent (curl :: more)).
  { intros t r. exists []. reflexivity. }
  destruct (do_resp (at_do a)) as [r|].
  - destruct (is_redirect_get r).
    + destruct (Location r); [apply Hstep|apply Hret].
    + destruct (getRespError (Some r) (do_err (at_do a))) as [[e|]| |]; try apply Hret.
      * destruct (os_IsTimeout e); [apply Hstep|apply Hret].
      * destruct stream_given; apply Hret.
  - destruct (getRespError None (do_err (at_do a))) as [[e|]| |]; try apply Hret.
    destruct (os_IsTimeout e); [apply Hstep|apply Hret].
Qed.

(** C1 (code_bug): the check looks only at the FIRST occurrence of
    "eos.ruid"; a path that names it once elsewhere and then injects
    "?eos.ruid=" is accepted by buildFullURL, and GETFile sends the
    request. *)
Theorem GETFile_injected_ruid_not_rejected (L : NetURL) (opt : Options)
  (u u' : URLT L) (uid gid : string) (stream_given : bool) (timebegin : Z)
  (a : Attempt) (rest : list Attempt) :
  url_Parse L (BaseURL opt) = Some u ->
  url_ParseRef L u "/eos.ruid?eos.ruid=0" = Some u' ->
  at_now a - timebegin <= OpTimeout opt ->
  (exists s, buildFullURL L opt "/eos.ruid?eos.ruid=0" uid gid = Ret s) /\
  sent_of (GETFile L opt "/eos.ruid?eos.ruid=0" uid gid stream_given timebegin (a :: rest))
    <> [].
Proof.
  intros Hb Hr Ht.
  assert (Hf : exists f, buildFullURL L opt "/eos.ruid?eos.ruid=0" uid gid = Ret f).
  { unfold buildFullURL. rewrite Hb, Hr. eexists. reflexivity. }
  destruct Hf as [f Hf].
  split; [exists f; exact Hf|].
  unfold GETFile. rewrite Hf.
  destruct (getLoop_sends_first opt f f timebegin stream_given [] a rest Ht) as [m Hm].
  rewrite Hm. discriminate.
Qed.

(** A 200 response from the MGM. *)
Definition ok_attempt (t : Z) : Attempt :=
  mkAttempt t (mkDoResult (Some (mkResponse 200 "200 OK" None "data")) None) t None.

Lemma GETFile_injected_ruid_not_rejected_witness :
  (exists s, buildFullURL textURL defaultOptions "/eos.ruid?eos.ruid=0" "1001" "1001" = Ret s) /\
  sent_of (GETFile textURL defaultOptions "/eos.ruid?eos.ruid=0" "1001" "1001" false 0
             [ok_attempt 0]) <> [].
Proof.
  apply (GETFile_injected_ruid_not_rejected textURL defaultOptions
           "https://eos-example.org" "https://eos-example.org/eos.ruid?eos.ruid=0").
  - reflexivity.
  - reflexivity.
  - vm_compute. discriminate.
Defined.

(** The deadline check at the top of each turn: if the clock reading of
    some turn is past the operation deadline, GETFile's loop returns by
    that turn. *)
Lemma getLoop_returns_by_deadline (opt : Options) (finalurl curl : string)
  (timebegin : Z) (stream_given : bool) (sent : list string)
  (trace : list Attempt) (x : Attempt) :
  In x trace -> OpTimeout opt < at_now x - timebegin ->
  exists s t r, getLoop opt finalurl curl timebegin stream_given sent trace = Returned s t r.
Proof.
  revert curl sent. induction trace as [|a rest IH]; intros curl sent Hin Hx; [destruct Hin|].
  simpl. destruct (OpTimeout opt <? at_now a - timebegin) eqn:Ht; [eauto|].
  assert (Hrest : In x rest).
  { destruct Hin as [<-|Hin]; [|exact Hin]. apply Z.ltb_ge in Ht. lia. }
  assert (Hstep : forall c s', exists s t r,
             getLoop opt finalurl c timebegin stream_given s' rest = Returned s t r)
    by (intros; apply IH; assumption).
  destruct (do_resp (at_do a)) as [r|].
  - destruct (is_redirect_get r).
    + destruct (Location r); [apply Hstep|eauto].
    + destruct (getRespError (Some r) (do_err (at_do a))) as [[e|]| |]; try eauto.
      * destruct (os_IsTimeout e); [apply Hstep|eauto].
      * destruct stream_given; eauto.
  - destruct (getRespError None (do_err (at_do a))) as [[e|]| |]; try eauto.
    destruct (os_IsTimeout e); [apply Hstep|eauto].
Qed.

(** A turn in which the MGM answers 200 with [body], the request having
    been sent at [t_now] and answered at [t_done]. *)
Definition answered_at (t_now t_done : Z) (body : string) : Attempt :=
  mkAttempt t_now (mkDoResult (Some (mkResponse 200 "200 OK" None body)) None) t_done None.

(** C9 (code_bug): the deadline is only read at the top of each turn and
    the request itself has no deadline: a GETFile whose single request is
    answered at any time [t_done] returns at [t_done], however far past
    OpTimeout. *)
Theorem GETFile_return_time_unbounded (L : NetURL) (opt : Options)
  (urlpath uid gid finalurl : string) (timebegin t_done : Z) (body : string) :
  buildFullURL L opt urlpath uid gid = Ret finalurl ->
  0 <= OpTimeout opt ->
  GETFile L opt urlpath uid gid false timebegin [answered_at timebegin t_done body]
    = Returned [finalurl] t_done (Ret (Some body)).
Proof.
  intros Hb Hop. unfold GETFile. rewrite Hb. simpl.
  assert (Hlt : (OpTimeout opt <? timebegin - timebegin) = false)
    by (apply Z.ltb_ge; lia).
  rewrite Hlt. reflexivity.
Qed.

Lemma GETFile_return_time_unbounded_witness :
  OpTimeout defaultOptions + 1 < 10000 /\
  GETFile textURL defaultOptions "/eos/u/alice/f" "1001" "1001" false 0
    [answered_at 0 10000 "data"]
  = Returned ["https://eos-example.org/eos/u/alice/f?eos.ruid=1001&eos.rgid=1001"]
      10000 (Ret (Some "data")).
Proof.
  split; [vm_compute; reflexivity|].
  apply GETFile_return_time_unbounded.
  - vm_compute. reflexivity.
  - vm_compute. discriminate.
Defined.

(** Do answered without error with status 200 or 201. *)
Definition answers_200_201 (a : Attempt) : bool :=
  match do_err (at_do a), do_resp (at_do a) with
  | None, Some r => Z.eqb (StatusCode r) 200 || Z.eqb (StatusCode r) 201
  | _, _ => false
  end.

(** Do answered without error with a 2xx status. *)
Definition answers_2xx (a : Attempt) : bool :=
  match do_err (at_do a), do_resp (at_do a) with
  | None, Some r => (200 <=? StatusCode r) && (StatusCode r <? 300)
  | _, _ => false
  end.

(** Still running, or returned the operation-timeout error. *)
Definition pending_or_timeout (finalurl : string) (r : Run unit) : Prop :=
  match r with
  | Pending _ => True
  | Returned _ _ res => res = Fail (timeoutError finalurl)
  end.

Lemma headLoop_never_ok (opt : Options) (finalurl : string) (timebegin : Z)
  (sent : list string) (trace : list Attempt) :
  forall s t, headLoop opt finalurl timebegin sent trace <> Returned s t (Ret tt).
Proof.
  revert sent. induction trace as [|a rest IH]; intros sent s t; simpl; [discriminate|].
  destruct (OpTimeout opt <? at_now a - timebegin); [discriminate|].
  destruct (getRespError (do_resp (at_do a)) (do_err (at_do a))) as [[e|]| |];
    try discriminate.
  - destruct (os_IsTimeout e); [apply IH|discriminate].
  - destruct (do_resp (at_do a)); [apply IH|discriminate].
Qed.

Lemma headLoop_200_times_out (opt : Options) (finalurl : string) (timebegin : Z)
  (sent : list string) (trace : list Attempt) :
  Forall (fun a => answers_200_201 a = true) trace ->
  pending_or_timeout finalurl (headLoop opt finalurl timebegin sent trace).
Proof.
  intros Hall. revert sent. induction Hall as [|a rest Ha Hall IH]; intros sent;
    simpl; [exact I|].
  destruct (OpTimeout opt <? at_now a - timebegin); [reflexivity|].
  unfold answers_200_201 in Ha.
  destruct (do_err (at_do a)) as [e|]; [discriminate|].
  destruct (do_resp (at_do a)) as [r|]; [|discriminate].
  unfold getRespError.
  destruct (Z.eqb (StatusCode r) 0); [apply IH|].
  rewrite Ha. apply IH.
Qed.

(** A turn within the deadline whose Do answered 200 or 201. *)
Definition accepted_turn (opt : Options) (timebegin : Z) (a : Attempt) : bool :=
  (at_now a - timebegin <=? OpTimeout opt) && answers_200_201 a.

Lemma repeat_snoc {T} (x : T) (n : nat) : app (repeat x n) [x] = repeat x (S n).
Proof. induction n as [|n IH]; simpl; [reflexivity|now rewrite IH]. Qed.

Lemma headLoop_accepted_prefix (opt : Options) (finalurl : string) (timebegin : Z)
  (pre rest : list Attempt) :
  Forall (fun a => accepted_turn opt timebegin a = true) pre ->
  forall sent, headLoop opt finalurl timebegin sent (app pre rest)
  = headLoop opt finalurl timebegin (app sent (repeat finalurl (length pre))) rest.
Proof.
  induction 1 as [|a pre Ha Hall IH]; intros sent; simpl.
  - now rewrite app_nil_r.
  - unfold accepted_turn, answers_200_201 in Ha.
    apply andb_true_iff in Ha as [Hle Ha].
    apply Z.leb_le in Hle.
    assert (Hlt : (OpTimeout opt <? at_now a - timebegin) = false) by (apply Z.ltb_ge; lia).
    rewrite Hlt.
    destruct (do_err (at_do a)) as [e|]; [discriminate|].
    destruct (do_resp (at_do a)) as [r|]; [|discriminate].
    unfold getRespError.
    destruct (Z.eqb (StatusCode r) 0); [|rewrite Ha];
      rewrite IH, <- app_assoc; reflexivity.
Qed.

(** C10 (amended): Head never returns success.  When every answer is a
    200 or 201 (the statuses besides 0 that getRespError accepts), Head
    re-sends the request on every turn and, on the first turn whose clock
    reading is past OpTimeout, returns the internal timeout error.  After
    any number of such turns, a turn within the deadline makes Head return
    at once: the transport error itself for a non-timeout error, a panic
    for a nil response, PermissionDenied for 403, NotFound for 404 and an
    InternalError for every other status besides 0, 200 and 201 (204 and
    the other 2xx included). *)
Theorem Head_never_succeeds (L : NetURL) (opt : Options) (urlpath uid gid finalurl : string)
  (timebegin : Z) (trace : list Attempt) :
  buildFullURL L opt urlpath uid gid = Ret finalurl ->
  (forall s t, Head L opt urlpath uid gid timebegin trace <> Returned s t (Ret tt)) /\
  (forall pre, Forall (fun a => accepted_turn opt timebegin a = true) pre ->
   Head L opt urlpath uid gid timebegin pre = Pending (repeat finalurl (length pre)) /\
   (forall b rest, OpTimeout opt < at_now b - timebegin ->
    Head L opt urlpath uid gid timebegin (app pre (b :: rest))
    = Returned (repeat finalurl (length pre)) (at_now b) (Fail (timeoutError finalurl))) /\
   (forall a rest, at_now a - timebegin <= OpTimeout opt ->
    let h := Head L opt urlpath uid gid timebegin (app pre (a :: rest)) in
    let sent := repeat finalurl (S (length pre)) in
    (forall e, do_err (at_do a) = Some e -> os_IsTimeout e = false ->
     h = Returned sent (at_done a) (Fail e)) /\
    (do_err (at_do a) = None -> do_resp (at_do a) = None ->
     h = Returned sent (at_done a) (Panic "nil pointer dereference")) /\
    (forall r, do_err (at_do a) = None -> do_resp (at_do a) = Some r ->
     StatusCode r = 403 -> h = Returned sent (at_done a) (Fail (PermissionDenied (rspdesc r)))) /\
    (forall r, do_err (at_do a) = None -> do_resp (at_do a) = Some r ->
     StatusCode r = 404 -> h = Returned sent (at_done a) (Fail (NotFound (rspdesc r)))) /\
    (forall r, do_err (at_do a) = None -> do_resp (at_do a) = Some r ->
     StatusCode r <> 0 -> StatusCode r <> 200 -> StatusCode r <> 201 ->
     StatusCode r <> 403 -> StatusCode r <> 404 ->
     h = Returned sent (at_done a)
           (Fail (InternalError ("Err from EOS: " ++ rspdesc r)))))).
Proof.
  intros Hb. unfold Head. rewrite Hb.
  split; [apply headLoop_never_ok|].
  intros pre Hpre.
  split; [|split].
  - rewrite <- (app_nil_r pre) at 1.
    rewrite (headLoop_accepted_prefix _ _ _ _ _ Hpre). reflexivity.
  - intros b rest Hpast.
    rewrite (headLoop_accepted_prefix _ _ _ _ _ Hpre). simpl.
    assert (Hlt : (OpTimeout opt <? at_now b - timebegin) = true) by (apply Z.ltb_lt; lia).
    rewrite Hlt. reflexivity.
  - intros a rest Hin. cbv zeta.
    rewrite (headLoop_accepted_prefix _ _ _ _ _ Hpre). simpl.
    assert (Hlt : (OpTimeout opt <? at_now a - timebegin) = false) by (apply Z.ltb_ge; lia).
    rewrite Hlt, repeat_snoc.
    split; [|split; [|split; [|split]]].
    + intros e He Ht. rewrite He. simpl. rewrite Ht. reflexivity.
    + intros He Hr. rewrite He, Hr. reflexivity.
    + intros r He Hr Hs. rewrite He, Hr. unfold getRespError. rewrite Hs. reflexivity.
    + intros r He Hr Hs. rewrite He, Hr. unfold getRespError. rewrite Hs. reflexivity.
    + intros r He Hr H0 H200 H201 H403 H404. rewrite He, Hr. unfold getRespError.
      apply Z.eqb_neq in H0, H200, H201, H403, H404.
      rewrite H0, H200, H201, H403, H404. reflexivity.
Qed.

(** A 204 answer. *)
Definition no_content_at (t : Z) : Attempt :=
  mkAttempt t (mkDoResult (Some (mkResponse 204 "204 No Content" None "")) None) t None.

(** A 200 answer. *)
Definition ok_at (t : Z) : Attempt :=
  mkAttempt t (mkDoResult (Some (mkResponse 200 "200 OK" None "")) None) t None.

Lemma Head_never_succeeds_witness :
  Head textURL defaultOptions "/eos/u/alice" "1001" "1001" 0 [ok_at 0; ok_at 10; ok_at 400]
  = Returned ["https://eos-example.org/eos/u/alice?eos.ruid=1001&eos.rgid=1001";
              "https://eos-example.org/eos/u/alice?eos.ruid=1001&eos.rgid=1001"] 400
      (Fail (timeoutError "https://eos-example.org/eos/u/alice?eos.ruid=1001&eos.rgid=1001"))
  /\
  Head textURL defaultOptions "/eos/u/alice" "1001" "1001" 0 [ok_at 0; no_content_at 5]
  = Returned ["https://eos-example.org/eos/u/alice?eos.ruid=1001&eos.rgid=1001";
              "https://eos-example.org/eos/u/alice?eos.ruid=1001&eos.rgid=1001"] 5
      (Fail (InternalError ("Err from EOS: " ++ rspdesc (mkResponse 204 "204 No Content" None "")))).
Proof.
  destruct (Head_never_succeeds textURL defaultOptions "/eos/u/alice" "1001" "1001"
              "https://eos-example.org/eos/u/alice?eos.ruid=1001&eos.rgid=1001" 0 [])
    as (_ & H).
  - vm_compute. reflexivity.
  - destruct (H [ok_at 0; ok_at 10]) as (_ & Ht & _); [repeat constructor|].
    destruct (H [ok_at 0]) as (_ & _ & He); [repeat constructor|].
    split.
    + apply (Ht (ok_at 400) []). vm_compute. reflexivity.
    + destruct (He (no_content_at 5) []) as (_ & _ & _ & _ & Hi); [vm_compute; discriminate|].
      apply (Hi (mkResponse 204 "204 No Content" None "")); try reflexivity; discriminate.
Defined.

(** C10 as stated fails: a 204 answer does not make Head re-send until the
    timeout; it returns an InternalError on the first turn. *)
Lemma Head_2xx_counterexample :
  ~ (forall trace : list Attempt,
       Forall (fun a => answers_2xx a = true) trace ->
       pending_or_timeout "https://eos-example.org/eos/u/alice?eos.ruid=1001&eos.rgid=1001"
         (Head textURL defaultOptions "/eos/u/alice" "1001" "1001" 0 trace)).
Proof.
  intros H. specialize (H [no_content_at 0] ltac:(repeat constructor)).
  vm_compute in H. discriminate H.
Qed.

End HttpFacts.

Module OpsFacts.
Import EosClient EosClientOps.

Lemma parse_digits_fail (s : string) (n : Z) (e : go_error) :
  parse_digits s n = Fail e -> exists f num k, e = NumError f num k.
Proof.
  revert n. induction s as [|c s IH]; intros n H; simpl in H; [discriminate|].
  destruct (digit_value c) as [d|]; [|injection H as <-; eauto].
  destruct (cutoff10 <=? n); [injection H as <-; eauto|].
  destruct (maxUint64 <? n * 10 + d); [injection H as <-; eauto|].
  exact (IH _ H).
Qed.

Lemma parse_digits_no_panic (s : string) (n : Z) (m : string) : parse_digits s n <> Panic m.
Proof.
  revert n. induction s as [|c s IH]; intros n; simpl; [discriminate|].
  destruct (digit_value c) as [d|]; [|discriminate].
  destruct (cutoff10 <=? n); [discriminate|].
  destruct (maxUint64 <? n * 10 + d); [discriminate|]. apply IH.
Qed.

Lemma ParseUint10_fail (s : string) (e : go_error) :
  ParseUint10 s = Fail e -> exists f num k, e = NumError f num k.
Proof.
  unfold ParseUint10. intros H. destruct s as [|c s'].
  - injection H as <-. eauto.
  - destruct (parse_digits (String c s') 0) as [n|e'|m] eqn:E; try discriminate.
    destruct (parse_digits_fail _ _ _ E) as (f & num & k & ->).
    injection H as <-. eauto.
Qed.

Lemma ParseUint10_no_panic (s : string) (m : string) : ParseUint10 s <> Panic m.
Proof.
  unfold ParseUint10. destruct s as [|c s']; [discriminate|].
  destruct (parse_digits (String c s') 0) as [n|[]|m'] eqn:E; try discriminate.
  exfalso. exact (parse_digits_no_panic _ _ _ E).
Qed.

Lemma Lookup_fail (passwd : list User) (name : string) (e : go_error) :
  Lookup passwd name = Fail e -> exists m, e = OtherError m.
Proof.
  induction passwd as [|u t IH]; simpl; intros H; [injection H as <-; eauto|].
  destruct (String.eqb (Username u) name); [discriminate|exact (IH H)].
Qed.

Lemma Lookup_no_panic (passwd : list User) (name m : string) : Lookup passwd name <> Panic m.
Proof.
  induction passwd as [|u t IH]; simpl; [discriminate|].
  destruct (String.eqb (Username u) name); [discriminate|exact IH].
Qed.

Lemma initNSRequest_not_internal (passwd : list User) (opt : Options) (username m : string) :
  initNSRequest passwd opt username <> Fail (InternalError m).
Proof.
  unfold initNSRequest, getUnixUser. intros H.
  destruct (Lookup passwd (unixUserName opt username)) as [u|e|p] eqn:El; simpl in H;
    [|injection H as ->; destruct (Lookup_fail _ _ _ El); discriminate|discriminate].
  destruct (ParseUint10 (Uid u)) as [x|e|p] eqn:E1; simpl in H;
    [|injection H as ->; destruct (ParseUint10_fail _ _ E1) as (? & ? & ? & ?); discriminate
     |discriminate].
  destruct (ParseUint10 (Gid u)) as [y|e|p] eqn:E2; simpl in H;
    [discriminate|injection H as ->; destruct (ParseUint10_fail _ _ E2) as (? & ? & ? & ?);
     discriminate|discriminate].
Qed.

Lemma nsExec_fail (rq : NSRequest) (cmd : NSCmd) (reply : outcome (option NSResponse))
  (e : go_error) :
  snd (nsExec rq cmd reply) = Fail e -> reply = Fail e.
Proof.
  unfold nsExec. simpl. destruct reply as [[r|]|e'|m]; simpl; try discriminate.
  - destruct (resp_error r); discriminate.
  - intros H. injection H as ->. reflexivity.
Qed.

Lemma nsWith_fail {A} (m : outcome A) (k : A -> Sent * outcome unit) (e : go_error) :
  snd (nsWith m k) = Fail e -> m = Fail e \/ exists a, m = Ret a /\ snd (k a) = Fail e.
Proof.
  destruct m as [a|e'|s]; simpl; intros H.
  - right. exists a. split; [reflexivity|exact H].
  - left. injection H as ->. reflexivity.
  - discriminate.
Qed.

Ltac ns_step H :=
  destruct (nsWith_fail _ _ _ H) as [Hm|(? & Hm & H')]; clear H.

(** Touch, rm, rmdir, Chmod, Chown, SetAttr and UnsetAttr return an
    InternalError only when Exec returned it.  Once the request is built,
    a nil reply, or a reply whose Error field is nil, makes each of them
    panic on the nil dereference of the log line. *)
Theorem ns_ops_never_internal_error (passwd : list User) (opt : Options)
  (username chownUser mode path : string) (attr : Attribute) (recursive : bool)
  (reply : outcome (option NSResponse)) (m : string) :
  (snd (Touch passwd opt username path reply) = Fail (InternalError m) ->
   reply = Fail (InternalError m)) /\
  (snd (rm passwd opt username path reply) = Fail (InternalError m) ->
   reply = Fail (InternalError m)) /\
  (snd (rmdir passwd opt username path reply) = Fail (InternalError m) ->
   reply = Fail (InternalError m)) /\
  (snd (Chmod passwd opt username mode path reply) = Fail (InternalError m) ->
   reply = Fail (InternalError m)) /\
  (snd (Chown passwd opt username chownUser path reply) = Fail (InternalError m) ->
   reply = Fail (InternalError m)) /\
  (snd (SetAttr passwd opt username attr recursive path reply) = Fail (InternalError m) ->
   reply = Fail (InternalError m)) /\
  (snd (UnsetAttr passwd opt username attr path reply) = Fail (InternalError m) ->
   reply = Fail (InternalError m)) /\
  (forall rq, initNSRequest passwd opt username = Ret rq ->
   reply = Ret None \/ reply = Ret (Some (mkNSResponse None)) ->
   snd (Touch passwd opt username path reply) = Panic "nil pointer dereference" /\
   snd (rm passwd opt username path reply) = Panic "nil pointer dereference" /\
   snd (rmdir passwd opt username path reply) = Panic "nil pointer dereference" /\
   snd (SetAttr passwd opt username attr recursive path reply)
     = Panic "nil pointer dereference" /\
   snd (UnsetAttr passwd opt username attr path reply) = Panic "nil pointer dereference" /\
   (forall md, ParseUint10 mode = Ret md ->
    snd (Chmod passwd opt username mode path reply) = Panic "nil pointer dereference") /\
   (forall cu owner, getUnixUser passwd opt chownUser = Ret cu ->
    ParseUint10 cu.(Uid) = Ret owner ->
    snd (Chown passwd opt username chownUser path reply) = Panic "nil pointer dereference")).
Proof.
  assert (Hnil : forall rq, initNSRequest passwd opt username = Ret rq ->
   reply = Ret None \/ reply = Ret (Some (mkNSResponse None)) ->
   snd (Touch passwd opt username path reply) = Panic "nil pointer dereference" /\
   snd (rm passwd opt username path reply) = Panic "nil pointer dereference" /\
   snd (rmdir passwd opt username path reply) = Panic "nil pointer dereference" /\
   snd (SetAttr passwd opt username attr recursive path reply)
     = Panic "nil pointer dereference" /\
   snd (UnsetAttr passwd opt username attr path reply) = Panic "nil pointer dereference" /\
   (forall md, ParseUint10 mode = Ret md ->
    snd (Chmod passwd opt username mode path reply) = Panic "nil pointer dereference") /\
   (forall cu owner, getUnixUser passwd opt chownUser = Ret cu ->
    ParseUint10 cu.(Uid) = Ret owner ->
    snd (Chown passwd opt username chownUser path reply) = Panic "nil pointer dereference")).
  { intros rq Hrq Hr.
    unfold Touch, rm, rmdir, SetAttr, UnsetAttr, Chmod, Chown. rewrite Hrq.
    destruct Hr as [-> | ->]; repeat split;
      try (intros md Hmd; simpl; rewrite Hmd; reflexivity);
      try (intros cu owner Hcu Ho; simpl; rewrite Hcu; simpl; rewrite Ho; reflexivity). }
  assert (Hinit : forall k, snd (nsWith (initNSRequest passwd opt username) k)
                              = Fail (InternalError m) ->
                            exists rq, snd (k rq) = Fail (InternalError m)).
  { intros k H. destruct (nsWith_fail _ _ _ H) as [Hm|(rq & _ & H')].
    - exfalso. exact (initNSRequest_not_internal _ _ _ _ Hm).
    - exists rq. exact H'. }
  refine (conj _ (conj _ (conj _ (conj _ (conj _ (conj _ (conj _ Hnil))))))); clear Hnil.
  all: intros H; destruct (Hinit _ H) as [rq H1]; clear H;
    try exact (nsExec_fail _ _ _ _ H1).
  - destruct (nsWith_fail _ _ _ H1) as [Hm|(md & _ & H2)].
    + destruct (ParseUint10_fail _ _ Hm) as (? & ? & ? & ?); discriminate.
    + exact (nsExec_fail _ _ _ _ H2).
  - destruct (nsWith_fail _ _ _ H1) as [Hm|(cu & _ & H2)].
    + unfold getUnixUser in Hm. destruct (Lookup_fail _ _ _ Hm); discriminate.
    + destruct (nsWith_fail _ _ _ H2) as [Hm|(o & _ & H3)].
      * destruct (ParseUint10_fail _ _ Hm) as (? & ? & ? & ?); discriminate.
      * exact (nsExec_fail _ _ _ _ H3).
Qed.


Lemma initNSRequest_ok (passwd : list User) (opt : Options) (username : string)
  (rq : NSRequest) :
  initNSRequest passwd opt username = Ret rq ->
  exists u uid gid, getUnixUser passwd opt username = Ret u /\
    ParseUint10 u.(Uid) = Ret uid /\ ParseUint10 u.(Gid) = Ret gid.
Proof.
  unfold initNSRequest. intros H.
  destruct (getUnixUser passwd opt username) as [u|e|p] eqn:E0; simpl in H; try discriminate.
  destruct (ParseUint10 (Uid u)) as [x|e|p] eqn:E1; simpl in H; try discriminate.
  destruct (ParseUint10 (Gid u)) as [y|e|p] eqn:E2; simpl in H; try discriminate.
  exists u, x, y. repeat split; assumption.
Qed.

Lemma grpc_isdir (r : MDResponse) (fi : FileInfo) :
  grpcMDResponseToFileInfo r = Ret fi -> fi.(fi_IsDir) = negb (Z.eqb r.(md_type) 0).
Proof.
  unfold grpcMDResponseToFileInfo.
  destruct (md_fmd r) as [f|], (md_cmd r) as [c|]; try discriminate;
    [destruct (md_mtime f)|destruct (md_mtime f)|destruct (md_mtime c)];
    try discriminate; intros H; injection H as <-; reflexivity.
Qed.

(** MGM answers carrying an error code are taken as success: with a
    non-nil Error field, whatever its Code and Msg, Touch, rm, rmdir,
    SetAttr, UnsetAttr, Chmod and Chown send their one request and return
    nil; SetAttr puts only the key and value of the attribute into the
    request, never its type. *)
Theorem ns_ops_ignore_error_code (passwd : list User) (opt : Options)
  (username chownUser mode path : string) (attr : Attribute) (recursive : bool)
  (rq : NSRequest) (code : Z) (msg : string) :
  initNSRequest passwd opt username = Ret rq ->
  let reply := Ret (Some (mkNSResponse (Some (code, msg)))) in
  Touch passwd opt username path reply = ([(rq, TouchCmd path)], Ret tt) /\
  rm passwd opt username path reply = ([(rq, UnlinkCmd path)], Ret tt) /\
  rmdir passwd opt username path reply = ([(rq, RmdirCmd path)], Ret tt) /\
  SetAttr passwd opt username attr recursive path reply
    = ([(rq, XattrCmd path [(attr.(attr_Key), attr.(attr_Val))] [] recursive)], Ret tt) /\
  UnsetAttr passwd opt username attr path reply
    = ([(rq, XattrCmd path [] [attr.(attr_Key)] false)], Ret tt) /\
  (forall md, ParseUint10 mode = Ret md ->
     Chmod passwd opt username mode path reply
     = ([(rq, ChmodCmd path (int64_of_uint64 md))], Ret tt)) /\
  (forall cu owner, getUnixUser passwd opt chownUser = Ret cu ->
     ParseUint10 cu.(Uid) = Ret owner ->
     Chown passwd opt username chownUser path reply = ([(rq, ChownCmd path owner)], Ret tt)).
Proof.
  intros Hrq reply.
  unfold Touch, rm, rmdir, SetAttr, UnsetAttr, Chmod, Chown. rewrite Hrq.
  repeat split.
  - intros md Hmd. simpl. rewrite Hmd. reflexivity.
  - intros cu owner Hcu Ho. simpl. rewrite Hcu. simpl. rewrite Ho. reflexivity.
Qed.

(** In single-user mode Chown gives the path to the configured single
    user, whichever chownUser is asked for. *)
Theorem Chown_single_user_owner (passwd : list User) (opt : Options)
  (username chownUser path : string) (reply : outcome (option NSResponse))
  (rq : NSRequest) (su : User) (owner : Z) :
  opt.(ForceSingleUserMode) = true ->
  initNSRequest passwd opt username = Ret rq ->
  Lookup passwd opt.(SingleUsername) = Ret su ->
  ParseUint10 su.(Uid) = Ret owner ->
  Chown passwd opt username chownUser path reply = nsExec rq (ChownCmd path owner) reply.
Proof.
  intros Hs Hrq Hl Ho. unfold Chown. rewrite Hrq. simpl.
  unfold getUnixUser, unixUserName. rewrite Hs, Hl. simpl. rewrite Ho. reflexivity.
Qed.

(** Remove stats the path first: a file (type 0) is unlinked and anything
    else removed with rmdir; a missing entry (nil stat answer) or a stat
    error ends Remove before any delete request is sent. *)
Theorem Remove_by_entry_type (passwd : list User) (opt : Options) (username path : string)
  (reply : outcome (option NSResponse)) (rq : NSRequest) :
  initNSRequest passwd opt username = Ret rq ->
  (forall r fi, grpcMDResponseToFileInfo r = Ret fi ->
     Remove passwd opt username path (Ret (Some r)) reply
     = nsExec rq (if Z.eqb r.(md_type) 0 then UnlinkCmd path else RmdirCmd path) reply) /\
  Remove passwd opt username path (Ret None) reply
    = ([], Fail (NotFound ("acltype:" ++ path))) /\
  (forall e, Remove passwd opt username path (Fail e) reply = ([], Fail e)).
Proof.
  intros Hrq.
  destruct (initNSRequest_ok _ _ _ _ Hrq) as (u & uid & gid & Hu & Huid & Hgid).
  unfold Remove, GetFileInfoByPath. rewrite Hu. simpl. rewrite Huid. simpl.
  rewrite Hgid. simpl. repeat split.
  intros r fi Hfi. rewrite Hfi. simpl. rewrite (grpc_isdir _ _ Hfi).
  unfold rmdir, rm. rewrite Hrq. simpl.
  destruct (Z.eqb (md_type r) 0); reflexivity.
Qed.

Lemma Lookup_ret (passwd : list User) (name : string) (u : User) :
  Lookup passwd name = Ret u -> In u passwd /\ u.(Username) = name.
Proof.
  induction passwd as [|v t IH]; simpl; intros H; [discriminate|].
  destruct (String.eqb (Username v) name) eqn:E.
  - injection H as <-. split; [left; reflexivity|apply String.eqb_eq; exact E].
  - destruct (IH H) as [Hin Hn]. split; [right; exact Hin|exact Hn].
Qed.

Lemma find_uid_in (passwd : list User) (uid : string) (u : User) :
  In u passwd -> u.(Uid) = uid ->
  exists v, find_uid passwd uid = Some v /\ In v passwd /\ v.(Uid) = uid.
Proof.
  induction passwd as [|w t IH]; simpl; intros Hin Hu; [contradiction|].
  destruct (String.eqb (Uid w) uid) eqn:E.
  - exists w. split; [reflexivity|]. split; [left; reflexivity|apply String.eqb_eq; exact E].
  - destruct Hin as [<-|Hin].
    + rewrite Hu, String.eqb_refl in E. discriminate.
    + destruct (IH Hin Hu) as (v & Hf & Hv & Hvu). exists v. auto.
Qed.

Lemma getUsername_numeric (passwd : list User) (uid : string) :
  snd (ParseInt10 uid) = None ->
  getUsername passwd uid
  = match find_uid passwd uid with
    | Some u => Ret u.(Username)
    | None => Fail (OtherError ("user: unknown userid " ++ EosHttp.Z_to_dec (fst (ParseInt10 uid))))
    end.
Proof.
  unfold getUsername, LookupId. destruct (ParseInt10 uid) as [i err]. simpl.
  intros ->. destruct (find_uid passwd uid); reflexivity.
Qed.

Lemma getUsername_spec (passwd : list User) (uid : string) :
  getUsername passwd uid
  = match snd (ParseInt10 uid) with
    | Some _ => Fail (OtherError ("user: invalid userid " ++ uid))
    | None =>
        match find_uid passwd uid with
        | Some u => Ret u.(Username)
        | None => Fail (OtherError ("user: unknown userid " ++ EosHttp.Z_to_dec (fst (ParseInt10 uid))))
        end
    end.
Proof.
  unfold getUsername, LookupId. destruct (ParseInt10 uid) as [i [err|]]; simpl; [reflexivity|].
  destruct (find_uid passwd uid); reflexivity.
Qed.

(** ListACLs looks every qualifier up as a uid of the passwd database,
    whatever the entry type (user, group or egroup): an entry whose
    qualifier is a decimal int found as a uid is kept, in order, with the
    account name as its qualifier; an entry whose uid is unknown, or whose
    qualifier is not a decimal int (a group or egroup name, say), is
    dropped without error. *)
Theorem ListACLs_maps_uids_to_users (passwd : list User) (parsed : list Entry) :
  ListACLs passwd (Ret parsed)
  = Ret (flat_map (fun a => match snd (ParseInt10 a.(acl_Qualifier)) with
                            | Some _ => []
                            | None =>
                                match find_uid passwd a.(acl_Qualifier) with
                                | Some u => [mkEntry a.(acl_Type) u.(Username) a.(acl_Permissions)]
                                | None => []
                                end
                            end) parsed).
Proof.
  unfold ListACLs. simpl. f_equal.
  rewrite <- (app_nil_l (flat_map _ parsed)).
  enough (Hacc : forall acc, fold_left (fun acls a =>
                    match getUsername passwd a.(acl_Qualifier) with
                    | Ret name => app acls [mkEntry a.(acl_Type) name a.(acl_Permissions)]
                    | _ => acls
                    end) parsed acc
           = app acc (flat_map (fun a => match snd (ParseInt10 a.(acl_Qualifier)) with
                            | Some _ => []
                            | None =>
                                match find_uid passwd a.(acl_Qualifier) with
                                | Some u => [mkEntry a.(acl_Type) u.(Username) a.(acl_Permissions)]
                                | None => []
                                end
                            end) parsed)) by apply Hacc.
  induction parsed as [|a l IH]; intros acc; simpl; [rewrite app_nil_r; reflexivity|].
  rewrite getUsername_spec.
  destruct (snd (ParseInt10 (acl_Qualifier a))); simpl; [rewrite IH; reflexivity|].
  destruct (find_uid passwd (acl_Qualifier a)) as [u|]; simpl.
  - rewrite IH, <- app_assoc. reflexivity.
  - rewrite IH. reflexivity.
Qed.

(** getUID and getUsername are inverse on a passwd database where the
    uid found for [name] is numeric and every account with that uid is
    [name] itself. *)
Theorem getUID_getUsername_roundtrip (passwd : list User) (name uid : string) :
  getUID passwd name = Ret uid ->
  snd (ParseInt10 uid) = None ->
  (forall v, In v passwd -> v.(Uid) = uid -> v.(Username) = name) ->
  getUsername passwd uid = Ret name.
Proof.
  unfold getUID. intros H Hnum Huniq.
  destruct (Lookup passwd name) as [u|e|m] eqn:El; simpl in H; try discriminate.
  injection H as <-. destruct (Lookup_ret _ _ _ El) as [Hin Hn].
  destruct (find_uid_in passwd (Uid u) u Hin eq_refl) as (v & Hf & Hv & Hvu).
  rewrite (getUsername_numeric _ _ Hnum), Hf. f_equal. exact (Huniq v Hv Hvu).
Qed.

(** Sample accounts and options for concrete runs. *)
Definition w_passwd : list User :=
  [mkUser "alice" "1001" "1001"; mkUser "root" "0" "0"].

Definition w_opt : Options :=
  mkOptions false false "" "/usr/bin/eos" "/usr/bin/xrdcopy" "root://eos-example.org"
    "localhost:50051" "/tmp" "" "" "".

Definition w_single : Options :=
  mkOptions true false "root" "/usr/bin/eos" "/usr/bin/xrdcopy" "root://eos-example.org"
    "localhost:50051" "/tmp" "" "" "".

Definition w_attr : Attribute := mkAttribute 7 "" "v".

Definition w_errreply : outcome (option NSResponse) :=
  Ret (Some (mkNSResponse (Some (2, "No such file or directory")))).

Definition w_file_md : MDResponse :=
  mkMDResponse 0 (Some (mkMDFields 7 1001 1001 (Some 1700000000) "/eos/u/alice/f" [] 12)) None.

Definition w_acls : list Entry :=
  [mkEntry "u" "1001" "rwx"; mkEntry "g" "0" "rx"; mkEntry "u" "2000" "r"].

Lemma ns_ops_never_internal_error_witness :
  snd (Touch w_passwd w_opt "alice" "/eos/u/alice/f" (Fail (InternalError "unavailable")))
    = Fail (InternalError "unavailable") /\
  (Fail (InternalError "unavailable") : outcome (option NSResponse))
    = Fail (InternalError "unavailable") /\
  snd (rm w_passwd w_opt "alice" "/eos/u/alice/f" (Ret None))
    = Panic "nil pointer dereference" /\
  snd (Chmod w_passwd w_opt "alice" "644" "/eos/u/alice/f" (Ret (Some (mkNSResponse None))))
    = Panic "nil pointer dereference".
Proof.
  split; [reflexivity|]. split.
  { apply (proj1 (ns_ops_never_internal_error w_passwd w_opt "alice" "" "" "/eos/u/alice/f"
                    w_attr false (Fail (InternalError "unavailable")) "unavailable")).
    reflexivity. }
  split.
  - destruct (ns_ops_never_internal_error w_passwd w_opt "alice" "" "" "/eos/u/alice/f"
                w_attr false (Ret None) "") as (_ & _ & _ & _ & _ & _ & _ & Hn).
    destruct (Hn (mkNSRequest 1001 1001 "" NoCommand) eq_refl (or_introl eq_refl))
      as (_ & Hrm & _).
    exact Hrm.
  - destruct (ns_ops_never_internal_error w_passwd w_opt "alice" "" "644" "/eos/u/alice/f"
                w_attr false (Ret (Some (mkNSResponse None))) "")
      as (_ & _ & _ & _ & _ & _ & _ & Hn).
    destruct (Hn (mkNSRequest 1001 1001 "" NoCommand) eq_refl (or_intror eq_refl))
      as (_ & _ & _ & _ & _ & Hchmod & _).
    apply (Hchmod 644). reflexivity.
Defined.

Lemma ns_ops_ignore_error_code_witness :
  SetAttr w_passwd w_opt "alice" w_attr false "/eos/u/alice/f" w_errreply
  = ([(mkNSRequest 1001 1001 "" NoCommand, XattrCmd "/eos/u/alice/f" [("", "v")] [] false)],
     Ret tt).
Proof.
  exact (proj1 (proj2 (proj2 (proj2
    (ns_ops_ignore_error_code w_passwd w_opt "alice" "" "" "/eos/u/alice/f" w_attr false
       (mkNSRequest 1001 1001 "" NoCommand) 2 "No such file or directory" eq_refl))))).
Defined.

Lemma Chown_single_user_owner_witness :
  Chown w_passwd w_single "alice" "bob" "/eos/u/alice/f" w_errreply
  = nsExec (mkNSRequest 0 0 "" NoCommand) (ChownCmd "/eos/u/alice/f" 0) w_errreply.
Proof. apply (Chown_single_user_owner _ _ _ _ _ _ _ (mkUser "root" "0" "0")); reflexivity. Defined.

Lemma Remove_by_entry_type_witness :
  Remove w_passwd w_opt "alice" "/eos/u/alice/f" (Ret (Some w_file_md)) w_errreply
  = nsExec (mkNSRequest 1001 1001 "" NoCommand) (UnlinkCmd "/eos/u/alice/f") w_errreply.
Proof.
  destruct (Remove_by_entry_type w_passwd w_opt "alice" "/eos/u/alice/f" w_errreply
              (mkNSRequest 1001 1001 "" NoCommand) eq_refl) as [H _].
  eapply H. reflexivity.
Defined.

Lemma ListACLs_maps_uids_to_users_witness :
  ListACLs w_passwd (Ret (app w_acls [mkEntry "egroup" "cern-staff" "rx"; mkEntry "g" "0" "r"]))
  = Ret [mkEntry "u" "alice" "rwx"; mkEntry "g" "root" "rx"; mkEntry "g" "root" "r"].
Proof.
  rewrite ListACLs_maps_uids_to_users. reflexivity.
Defined.

Lemma getUID_getUsername_roundtrip_witness :
  getUsername w_passwd "1001" = Ret "alice".
Proof.
  apply (getUID_getUsername_roundtrip w_passwd "alice" "1001"); [reflexivity|reflexivity|].
  intros v [<-|[<-|[]]]; simpl; [reflexivity|discriminate].
Defined.

End OpsFacts.

Module FindFacts.
Import EosFind StringFacts.

Lemma str_length_app (a b : string) :
  String.length (a ++ b) = (String.length a + String.length b)%nat.
Proof. induction a as [|c a IH]; simpl; [reflexivity|]. rewrite IH. reflexivity. Qed.

Lemma substring_whole (b : string) : substring 0 (String.length b) b = b.
Proof. induction b as [|c b IH]; simpl; [reflexivity|]. rewrite IH. reflexivity. Qed.

Lemma substring_app_l (a b : string) : substring 0 (String.length a) (a ++ b) = a.
Proof.
  induction a as [|c a IH]; simpl; [destruct b; reflexivity|]. rewrite IH. reflexivity.
Qed.

Lemma substring_app_r (a b : string) (m : nat) :
  substring (String.length a) m (a ++ b) = substring 0 m b.
Proof. induction a as [|c a IH]; simpl; [reflexivity|]. exact IH. Qed.

Lemma slice_app_l (a b : string) : slice (a ++ b) 0 (Z.of_nat (String.length a)) = Ret a.
Proof.
  unfold slice. rewrite str_length_app.
  replace ((0 <=? 0) && (0 <=? Z.of_nat (String.length a))
           && (Z.of_nat (String.length a) <=? Z.of_nat (String.length a + String.length b)))
    with true by (symmetry; rewrite !andb_true_iff, !Z.leb_le; lia).
  rewrite Z.sub_0_r, Nat2Z.id. simpl Z.to_nat. rewrite substring_app_l. reflexivity.
Qed.

Lemma slice_from_app (a b : string) : slice_from (a ++ b) (Z.of_nat (String.length a)) = Ret b.
Proof.
  unfold slice_from, slice. rewrite str_length_app.
  replace ((0 <=? Z.of_nat (String.length a))
           && (Z.of_nat (String.length a) <=? Z.of_nat (String.length a + String.length b))
           && (Z.of_nat (String.length a + String.length b)
               <=? Z.of_nat (String.length a + String.length b)))
    with true by (symmetry; rewrite !andb_true_iff, !Z.leb_le; lia).
  rewrite Nat2Z.id.
  replace (Z.to_nat (Z.of_nat (String.length a + String.length b) - Z.of_nat (String.length a)))
    with (String.length b) by lia.
  rewrite substring_app_r, substring_whole. reflexivity.
Qed.

Lemma parse_digits_no_space (s : string) (n r : Z) :
  parse_digits s n = Ret r -> has_char " " s = false.
Proof.
  revert n. induction s as [|c s IH]; intros n H; simpl in *; [reflexivity|].
  destruct (digit_value c) as [d|] eqn:Ed; [|discriminate].
  destruct (cutoff10 <=? n); [discriminate|].
  destruct (maxUint64 <? n * 10 + d); [discriminate|].
  rewrite (IH _ H), orb_false_r.
  destruct (Ascii.eqb c " ") eqn:Ec; [|reflexivity].
  apply Ascii.eqb_eq in Ec. subst c. discriminate.
Qed.

Lemma ParseUint10_no_space (s : string) (r : Z) :
  ParseUint10 s = Ret r -> has_char " " s = false.
Proof.
  unfold ParseUint10. destruct s as [|c s']; [discriminate|].
  destruct (parse_digits (String c s') 0) as [n|[]|m] eqn:E; try discriminate.
  intros _. exact (parse_digits_no_space _ _ _ E).
Qed.

Lemma prefix_app (p x : string) : String.prefix p (p ++ x) = true.
Proof.
  induction p as [|c p IH]; simpl; [destruct x; reflexivity|].
  destruct (ascii_dec c c) as [_|n]; [exact IH|contradiction].
Qed.

Lemma index_from_eq (s sub : string) (i : Z) :
  GoLib.index_from s sub i
  = if String.prefix sub s then i
    else match s with
         | EmptyString => -1
         | String _ s' => GoLib.index_from s' sub (i + 1)
         end.
Proof. destruct s; reflexivity. Qed.

Lemma index_after_spaceless (a x sub : string) (c : ascii) (i : Z) :
  has_char c a = false ->
  GoLib.index_from (a ++ String c sub ++ x) (String c sub) i = i + Z.of_nat (String.length a).
Proof.
  revert i. induction a as [|b a IH]; intros i Ha; rewrite index_from_eq.
  - change ("" ++ String c sub ++ x) with (String c sub ++ x). rewrite prefix_app. simpl. lia.
  - simpl in Ha. apply orb_false_iff in Ha as [Hb Ha].
    change (String b a ++ String c sub ++ x) with (String b (a ++ String c sub ++ x)).
    simpl String.prefix.
    destruct (ascii_dec c b) as [->|Hne]; [rewrite Ascii.eqb_refl in Hb; discriminate|].
    rewrite IH; [simpl String.length; lia|exact Ha].
Qed.

(** parseFileInfo reads the file name by its length prefix: after the
    15-byte "keylength.file=" header, a decimal length n, then " file=",
    the n bytes of the name (spaces and " file=/" inside it included) and
    one separator; the name is stored without a trailing slash and the
    rest of the line is read as key=value tokens. *)
Theorem parseFileInfo_length_prefixed_name (opt : EosClient.Options)
  (hdr lenstr nm rest : string) :
  String.length hdr = 15%nat ->
  ParseUint10 lenstr = Ret (Z.of_nat (S (String.length nm))) ->
  parseFileInfo opt (hdr ++ lenstr ++ " file=/" ++ nm ++ " " ++ rest)
  = mapToFileInfo opt (kv_loop (split " " rest) "" [("file", TrimSuffix ("/" ++ nm) "/")]).
Proof.
  intros Hh Hlen. unfold parseFileInfo.
  replace 15 with (Z.of_nat (String.length hdr)) by (rewrite Hh; reflexivity).
  rewrite slice_from_app. cbn [bind]. unfold GoLib.index.
  rewrite (index_after_spaceless lenstr (nm ++ " " ++ rest) "file=/" " " 0
             (ParseUint10_no_space _ _ Hlen)).
  rewrite Z.add_0_l, slice_app_l. cbn [bind]. rewrite Hlen. cbn [bind].
  replace (lenstr ++ " file=/" ++ nm ++ " " ++ rest)
    with ((lenstr ++ " file=") ++ ("/" ++ nm ++ " " ++ rest))
    by (rewrite string_app_assoc; reflexivity).
  replace (Z.of_nat (String.length lenstr) + 6)
    with (Z.of_nat (String.length (lenstr ++ " file=")))
    by (rewrite str_length_app; simpl String.length; lia).
  rewrite slice_from_app. cbn [bind].
  replace ("/" ++ nm ++ " " ++ rest) with (("/" ++ nm) ++ (" " ++ rest))
    by (rewrite string_app_assoc; reflexivity).
  change (S (String.length nm)) with (String.length ("/" ++ nm)).
  rewrite slice_app_l. cbn [bind].
  replace (("/" ++ nm) ++ " " ++ rest) with ((("/" ++ nm) ++ " ") ++ rest)
    by (rewrite string_app_assoc; reflexivity).
  replace (Z.of_nat (String.length ("/" ++ nm)) + 1)
    with (Z.of_nat (String.length (("/" ++ nm) ++ " ")))
    by (rewrite (str_length_app _ " "); simpl String.length; lia).
  rewrite slice_from_app. cbn [bind]. reflexivity.
Qed.

(** parseFileInfo slices the line without bounds checks: a line shorter
    than the 15-byte header, or one with no " file=/" after it, makes it
    panic, and parseFind with it on such a line. *)
Theorem parseFileInfo_malformed_line_panics (opt : EosClient.Options) (dirPath raw : string) :
  raw <> "" -> has_char EosClient.newline raw = false ->
  ((String.length raw < 15)%nat
   \/ GoLib.index (substring 15 (String.length raw - 15) raw) " file=/" = -1) ->
  exists m, parseFileInfo opt raw = Panic m /\ parseFind opt dirPath raw = Panic m.
Proof.
  intros Hne Hnl Hbad.
  assert (Hp : exists m, parseFileInfo opt raw = Panic m).
  { unfold parseFileInfo, slice_from, slice.
    destruct (Nat.ltb_spec (String.length raw) 15) as [Hlt|Hge].
    - replace ((0 <=? 15) && (15 <=? Z.of_nat (String.length raw))
               && (Z.of_nat (String.length raw) <=? Z.of_nat (String.length raw)))
        with false by (symmetry; apply andb_false_iff; left; apply andb_false_iff; right;
                       apply Z.leb_gt; lia).
      eexists. reflexivity.
    - destruct Hbad as [Hlt|Hidx]; [lia|].
      replace ((0 <=? 15) && (15 <=? Z.of_nat (String.length raw))
               && (Z.of_nat (String.length raw) <=? Z.of_nat (String.length raw)))
        with true by (symmetry; rewrite !andb_true_iff, !Z.leb_le; lia).
      replace (Z.to_nat (Z.of_nat (String.length raw) - 15)) with (String.length raw - 15)%nat
        by lia.
      change (Z.to_nat 15) with 15%nat. cbn [bind]. rewrite Hidx. eexists. reflexivity. }
  destruct Hp as [m Hm]. exists m. split; [exact Hm|].
  unfold parseFind. rewrite (split_no_char _ _ Hnl). simpl parseFindLines.
  destruct (String.eqb raw "") eqn:E; [apply String.eqb_eq in E; contradiction|].
  rewrite Hm. reflexivity.
Qed.

(** parseFind never lists the directory it was asked about: an entry
    whose name is Clean(dirPath) is dropped. *)
Theorem parseFind_skips_directory (opt : EosClient.Options) (dirPath raw : string)
  (l : list FileInfo) :
  parseFind opt dirPath raw = Ret l ->
  Forall (fun fi => fi.(File) <> EosClient.Clean dirPath) l.
Proof.
  unfold parseFind. generalize (split EosClient.newline raw) as lines.
  intros lines. revert l. induction lines as [|rl t IH]; intros l H; simpl in H.
  - injection H as <-. constructor.
  - destruct (String.eqb rl ""); [exact (IH _ H)|].
    destruct (parseFileInfo opt rl) as [fi|e|m]; simpl in H; try discriminate.
    destruct (String.eqb (File fi) (EosClient.Clean dirPath)) eqn:Ef; [exact (IH _ H)|].
    destruct (parseFindLines opt dirPath t) as [l'|e|m] eqn:Et; simpl in H; try discriminate.
    injection H as <-. constructor.
    + intros Heq. rewrite Heq, String.eqb_refl in Ef. discriminate.
    + exact (IH _ eq_refl).
Qed.

(** Whether a parse step succeeds. *)
Definition parses (r : outcome Z) : bool :=
  match r with Ret _ => true | _ => false end.

(** mapToFileInfo reads mtime[1] unchecked.  When every number it parses
    before the mtime is well formed and the mtime has no '.', it panics
    with an index out of range if the mtime is a plain decimal number, and
    returns the ParseUint error of the mtime otherwise (an empty or
    non-numeric mtime). *)
Theorem mapToFileInfo_mtime_without_dot_panics (opt : EosClient.Options) (kv : smap) :
  forallb parses [ParseUint10 (map_get kv "ino"); ParseUint10 (map_get kv "fid");
                  ParseUint10 (map_get kv "uid"); ParseUint10 (map_get kv "gid");
                  parse_if_present kv "treesize"; parse_if_present kv "files";
                  parse_if_present kv "container"; parse_if_present kv "size"] = true ->
  has_char "." (map_get kv "mtime") = false ->
  (forall n, ParseUint10 (map_get kv "mtime") = Ret n ->
   mapToFileInfo opt kv = Panic "index out of range") /\
  (forall e, ParseUint10 (map_get kv "mtime") = Fail e -> mapToFileInfo opt kv = Fail e).
Proof.
  intros Hall Hdot. unfold mapToFileInfo. rewrite (split_no_char _ _ Hdot).
  simpl nth. simpl nth_error. simpl forallb in Hall.
  repeat match goal with
  | H : context [parses ?r] |- _ =>
      destruct r eqn:?; simpl in H; try discriminate; cbn [bind]
  end.
  split; intros ? ->; reflexivity.
Qed.

Definition w_fopt : EosClient.Options :=
  EosClient.mkOptions false false "" "/usr/bin/eos" "/usr/bin/xrdcopy" "root://eos-example.org"
    "localhost:50051" "/tmp" "" "" "".

Definition w_rest : string :=
  "ino=5 fid=5 uid=0 gid=0 mtime=1498571294.108614409 size=45 xattrn=sys.acl xattrv=u:1001:rwx".

Definition w_find_raw : string :=
  "keylength.file=7 file=/eos/d/ ino=2 fid=2 uid=0 gid=0 mtime=1498571294.1 files=1 container=0"
  ++ String EosClient.newline
  ("keylength.file=10 file=/eos/d/f x ino=5 fid=5 uid=0 gid=0 mtime=1498571294.2 size=45"
  ++ String EosClient.newline "").

Definition w_find_list : list FileInfo :=
  match parseFind w_fopt "/eos/d/" w_find_raw with Ret l => l | _ => [] end.

Lemma parseFileInfo_length_prefixed_name_witness :
  parseFileInfo w_fopt ("keylength.file=9 file=/eos/a b/ " ++ w_rest)
  = mapToFileInfo w_fopt (kv_loop (split " " w_rest) "" [("file", "/eos/a b")]).
Proof.
  apply (parseFileInfo_length_prefixed_name w_fopt "keylength.file=" "9" "eos/a b/" w_rest);
    reflexivity.
Defined.

Lemma parseFileInfo_malformed_line_panics_witness :
  exists m, parseFileInfo w_fopt "error: no such file or directory" = Panic m /\
            parseFind w_fopt "/eos/d" "error: no such file or directory" = Panic m.
Proof.
  apply parseFileInfo_malformed_line_panics; [discriminate|reflexivity|].
  right. reflexivity.
Defined.

Lemma parseFind_skips_directory_witness :
  length w_find_list = 1%nat /\
  Forall (fun fi => fi.(File) <> EosClient.Clean "/eos/d/") w_find_list.
Proof.
  split; [reflexivity|].
  apply (parseFind_skips_directory w_fopt "/eos/d/" w_find_raw). reflexivity.
Defined.

Lemma mapToFileInfo_mtime_without_dot_panics_witness :
  mapToFileInfo w_fopt [("ino", "5"); ("fid", "5"); ("uid", "0"); ("gid", "0");
                        ("mtime", "1498571294")]
  = Panic "index out of range" /\
  mapToFileInfo w_fopt [("ino", "5"); ("fid", "5"); ("uid", "0"); ("gid", "0")]
  = Fail (NumError "ParseUint" "" ErrSyntax).
Proof.
  split.
  - apply (proj1 (mapToFileInfo_mtime_without_dot_panics w_fopt
      [("ino", "5"); ("fid", "5"); ("uid", "0"); ("gid", "0"); ("mtime", "1498571294")]
      eq_refl eq_refl) 1498571294).
    reflexivity.
  - apply (proj2 (mapToFileInfo_mtime_without_dot_panics w_fopt
      [("ino", "5"); ("fid", "5"); ("uid", "0"); ("gid", "0")] eq_refl eq_refl)).
    reflexivity.
Defined.

End FindFacts.

Module QuotaRecycleFacts.
Import EosFind StringFacts.

Lemma parse_digits_nonneg (s : string) (n r : Z) :
  parse_digits s n = Ret r -> 0 <= n -> 0 <= r.
Proof.
  revert n. induction s as [|c s IH]; intros n H Hn; simpl in H.
  - injection H as <-. exact Hn.
  - destruct (digit_value c) as [d|] eqn:Ed; [|discriminate].
    destruct (cutoff10 <=? n); [discriminate|].
    destruct (maxUint64 <? n * 10 + d); [discriminate|].
    apply (IH _ H). unfold digit_value in Ed.
    destruct ((48 <=? Z.of_nat (nat_of_ascii c)) && (Z.of_nat (nat_of_ascii c) <=? 57)) eqn:Eb;
      [|discriminate].
    injection Ed as <-. apply andb_true_iff in Eb as [Eb _]. apply Z.leb_le in Eb. lia.
Qed.

Lemma ParseUint10_value_nonneg (s : string) : 0 <= fst (ParseUint10_value s).
Proof.
  unfold ParseUint10_value, ParseUint10. destruct s as [|c s']; [simpl; lia|].
  destruct (parse_digits (String c s') 0) as [n|e|m] eqn:E; cbv iota beta.
  - exact (parse_digits_nonneg _ _ _ E (Z.le_refl 0)).
  - destruct e as [| | | | f num [] | | | | ]; simpl; unfold maxUint64; lia.
  - simpl. lia.
Qed.

Lemma ParseInt10_range (s : string) :
  - int64_cutoff <= fst (ParseInt10 s) < int64_cutoff.
Proof.
  unfold ParseInt10. destruct s as [|c rest]; [unfold int64_cutoff; simpl; lia|].
  destruct (if Ascii.eqb c "+" then (false, rest)
            else if Ascii.eqb c "-" then (true, rest) else (false, String c rest))
    as [neg u].
  pose proof (ParseUint10_value_nonneg u) as Hnn.
  destruct (ParseUint10_value u) as [un err]. simpl in Hnn.
  assert (Hc : 0 < int64_cutoff) by (unfold int64_cutoff; lia).
  assert (Hbody : - int64_cutoff <=
            fst (if negb neg && (int64_cutoff <=? un)
                 then (int64_cutoff - 1, Some (NumError "ParseInt" (String c rest) ErrRange))
                 else if neg && (int64_cutoff <? un)
                 then (- int64_cutoff, Some (NumError "ParseInt" (String c rest) ErrRange))
                 else ((if neg then - un else un), None)) < int64_cutoff).
  { destruct neg; cbn [negb andb].
    - destruct (Z.ltb_spec int64_cutoff un); cbn [fst]; lia.
    - destruct (Z.leb_spec int64_cutoff un); cbn [fst]; lia. }
  destruct err as [e|]; [|exact Hbody].
  destruct e as [| | | | f num [] | | | | ]; simpl; try lia; exact Hbody.
Qed.

Lemma ParseInt10_syntax_zero (s : string) (v : Z) (f num : string) :
  ParseInt10 s = (v, Some (NumError f num ErrSyntax)) -> v = 0.
Proof.
  unfold ParseInt10. destruct s as [|c rest]; [intros H; injection H; auto|].
  destruct (if Ascii.eqb c "+" then (false, rest)
            else if Ascii.eqb c "-" then (true, rest) else (false, String c rest))
    as [neg u].
  destruct (ParseUint10_value u) as [un err].
  destruct err as [[| | | | f' num' [] | | | | ]|];
    repeat match goal with |- context [if ?b then _ else _] => destruct b end;
    intros H; inversion H; auto.
Qed.

Lemma ParseInt10_range_clamped (s : string) (v : Z) (f num : string) :
  ParseInt10 s = (v, Some (NumError f num ErrRange)) -> v = 2 ^ 63 - 1 \/ v = - 2 ^ 63.
Proof.
  unfold ParseInt10. destruct s as [|c rest]; [intros H; inversion H|].
  destruct (if Ascii.eqb c "+" then (false, rest)
            else if Ascii.eqb c "-" then (true, rest) else (false, String c rest))
    as [neg u].
  destruct (ParseUint10_value u) as [un err].
  destruct err as [[| | | | f' num' [] | | | | ]|];
    repeat match goal with |- context [if ?b then _ else _] => destruct b end;
    intros H; inversion H; unfold int64_cutoff; auto.
Qed.

(** The line parseQuota takes: a non-empty line whose space= field is a
    prefix of the path. *)
Definition quota_line_selected (path rl : string) : bool :=
  negb (String.eqb rl "") && HasPrefix path (map_get (parseQuotaLine rl) "space").

(** parseQuota never returns an error.  It returns the maxlogicalbytes
    and usedlogicalbytes of the first non-empty line whose space= field is
    a prefix of the path (0 and 0 when there is none), each as ParseInt
    reads it with its error dropped: 0 for a syntax error (an empty or
    non-numeric field), 2^63-1 or -2^63 for an out-of-range number; both
    results lie in the int64 range. *)
Theorem parseQuota_never_fails (path raw : string) :
  parseQuota path raw
  = (match find (quota_line_selected path) (split EosClient.newline raw) with
     | Some rl => (fst (ParseInt10 (map_get (parseQuotaLine rl) "maxlogicalbytes")),
                   fst (ParseInt10 (map_get (parseQuotaLine rl) "usedlogicalbytes")))
     | None => (0, 0)
     end, None) /\
  (forall s v f num, ParseInt10 s = (v, Some (NumError f num ErrSyntax)) -> v = 0) /\
  (forall s v f num, ParseInt10 s = (v, Some (NumError f num ErrRange)) ->
     v = 2 ^ 63 - 1 \/ v = - 2 ^ 63) /\
  - 2 ^ 63 <= fst (fst (parseQuota path raw)) < 2 ^ 63 /\
  - 2 ^ 63 <= snd (fst (parseQuota path raw)) < 2 ^ 63.
Proof.
  assert (Hval : parseQuota path raw
    = (match find (quota_line_selected path) (split EosClient.newline raw) with
       | Some rl => (fst (ParseInt10 (map_get (parseQuotaLine rl) "maxlogicalbytes")),
                     fst (ParseInt10 (map_get (parseQuotaLine rl) "usedlogicalbytes")))
       | None => (0, 0)
       end, None)).
  { unfold parseQuota. generalize (split EosClient.newline raw) as lines.
    induction lines as [|rl t IH]; simpl; [reflexivity|].
    unfold quota_line_selected at 1.
    destruct (String.eqb rl ""); simpl; [exact IH|].
    destruct (HasPrefix path (map_get (parseQuotaLine rl) "space")); [reflexivity|exact IH]. }
  split; [exact Hval|]. split; [exact ParseInt10_syntax_zero|].
  split; [exact ParseInt10_range_clamped|].
  rewrite Hval.
  destruct (find (quota_line_selected path) (split EosClient.newline raw)) as [rl|];
    simpl; [|lia].
  pose proof (ParseInt10_range (map_get (parseQuotaLine rl) "maxlogicalbytes")).
  pose proof (ParseInt10_range (map_get (parseQuotaLine rl) "usedlogicalbytes")).
  unfold int64_cutoff in *. lia.
Qed.

(** A quota line with no (or an empty) space= field is taken for every
    path: when it is the first non-empty line of the output (after any
    number of empty lines, terminated by a newline or not), parseQuota
    returns its values whatever path is asked about. *)
Theorem parseQuota_spaceless_line_matches_all (path raw line : string)
  (pre post : list string) :
  split EosClient.newline raw = app pre (line :: post) ->
  Forall (fun l => l = "") pre -> line <> "" ->
  map_get (parseQuotaLine line) "space" = "" ->
  parseQuota path raw
  = (fst (ParseInt10 (map_get (parseQuotaLine line) "maxlogicalbytes")),
     fst (ParseInt10 (map_get (parseQuotaLine line) "usedlogicalbytes")), None).
Proof.
  intros Hs Hpre Hne Hsp. unfold parseQuota. rewrite Hs. clear Hs.
  induction Hpre as [|l pre Hl Hpre IH]; simpl.
  - destruct (String.eqb line "") eqn:E; [apply String.eqb_eq in E; contradiction|].
    rewrite Hsp. unfold HasPrefix. replace (String.prefix "" path) with true
      by (destruct path; reflexivity).
    reflexivity.
  - subst l. simpl. exact IH.
Qed.

Lemma split_not_nil (c : ascii) (s : string) : split c s <> [].
Proof.
  induction s as [|a s IH]; simpl; [discriminate|].
  destruct (Ascii.eqb a c); [discriminate|].
  destruct (split c s); discriminate.
Qed.

(** A recycle-bin line with fewer than ten space-separated tokens makes
    parseRecycleEntry slice past the end of its token list: when it is the
    first non-empty line of the output (after any number of empty lines,
    terminated by a newline or not), parseRecycleList panics instead of
    returning an error. *)
Theorem parseRecycleList_short_line_panics (raw line : string) (pre post : list string) :
  split EosClient.newline raw = app pre (line :: post) ->
  Forall (fun l => l = "") pre -> line <> "" ->
  (length (split " " line) < 10)%nat ->
  EosClient.parseRecycleList raw = Panic "slice bounds out of range".
Proof.
  intros Hs Hpre Hne Hshort. unfold EosClient.parseRecycleList. rewrite Hs. clear Hs.
  induction Hpre as [|l pre Hl Hpre IH]; simpl.
  - destruct (String.eqb line "") eqn:E; [apply String.eqb_eq in E; contradiction|].
    unfold EosClient.parseRecycleEntry.
    assert (Hlen : (length (removelast (split " " line)) < 9)%nat).
    { pose proof (app_removelast_last "" (split_not_nil " " line)) as Hl.
      rewrite Hl, length_app in Hshort. simpl in Hshort. lia. }
    apply Nat.ltb_lt in Hlen. rewrite Hlen. reflexivity.
  - subst l. simpl. exact IH.
Qed.

(** On success parseRecycleList returns one entry per non-empty line, in
    the order of the lines, each the parse of its line. *)
Theorem parseRecycleList_one_entry_per_line (raw : string) (l : list EosClient.DeletedEntry) :
  EosClient.parseRecycleList raw = Ret l ->
  Forall2 (fun rl e => EosClient.parseRecycleEntry rl = Ret e)
    (filter (fun rl => negb (String.eqb rl "")) (split EosClient.newline raw)) l.
Proof.
  unfold EosClient.parseRecycleList. generalize (split EosClient.newline raw) as lines.
  intros lines. revert l. induction lines as [|rl t IH]; intros l H; simpl in H |- *.
  - injection H as <-. constructor.
  - destruct (String.eqb rl ""); simpl; [exact (IH _ H)|].
    destruct (EosClient.parseRecycleEntry rl) as [e|er|m] eqn:Ee; simpl in H; try discriminate.
    destruct (EosClient.parseRecycleLines t) as [l'|er|m]; simpl in H; try discriminate.
    injection H as <-. constructor; [exact Ee|exact (IH _ eq_refl)].
Qed.

Lemma parseQuota_spaceless_line_matches_all_witness :
  parseQuota "/eos/u/alice"
    (String EosClient.newline
       ("quota=node uid=alice maxlogicalbytes=1000 usedlogicalbytes=10"
        ++ String EosClient.newline
           "quota=node space=/eos/other/ maxlogicalbytes=5 usedlogicalbytes=1"))
  = (1000, 10, None) /\
  parseQuota "/eos/u/alice" "quota=node uid=alice maxlogicalbytes=1000 usedlogicalbytes=10"
  = (1000, 10, None).
Proof.
  split.
  - rewrite (parseQuota_spaceless_line_matches_all _ _
      "quota=node uid=alice maxlogicalbytes=1000 usedlogicalbytes=10" [""]
      ["quota=node space=/eos/other/ maxlogicalbytes=5 usedlogicalbytes=1"]);
      [reflexivity|reflexivity|repeat constructor|discriminate|reflexivity].
  - rewrite (parseQuota_spaceless_line_matches_all _ _
      "quota=node uid=alice maxlogicalbytes=1000 usedlogicalbytes=10" [] []);
      [reflexivity|reflexivity|constructor|discriminate|reflexivity].
Defined.

Lemma parseRecycleList_short_line_panics_witness :
  EosClient.parseRecycleList
    (String EosClient.newline (String EosClient.newline "recycle=ls uid=alice"))
  = Panic "slice bounds out of range".
Proof.
  apply (parseRecycleList_short_line_panics _ "recycle=ls uid=alice" [""; ""] []);
    [reflexivity|repeat constructor|discriminate|simpl; lia].
Defined.

Lemma parseRecycleList_one_entry_per_line_witness :
  Forall2 (fun rl e => EosClient.parseRecycleEntry rl = Ret e)
    (filter (fun rl => negb (String.eqb rl ""))
       (split EosClient.newline (S6_eos_layout ++ String EosClient.newline "")))
    [EosClient.mkDeletedEntry "/eos/u/a a/b" "000000002544fdb3" 381038 1510823151 false].
Proof. apply parseRecycleList_one_entry_per_line. reflexivity. Defined.

End QuotaRecycleFacts.

Module HttpMoreFacts.
Import EosHttp EosHttpInit.

Lemma Init_options (lk : string -> string -> option go_error) (opt : Options) :
  fst (fst (Init lk opt)) = init_fields opt.
Proof. unfold Init. destruct (lk _ _); reflexivity. Qed.

Lemma dflt_Z (x d : Z) : d <> 0 ->
  (if Z.eqb (if Z.eqb x 0 then d else x) 0 then d else (if Z.eqb x 0 then d else x))
  = (if Z.eqb x 0 then d else x) /\ (if Z.eqb x 0 then d else x) <> 0.
Proof.
  intros Hd. destruct (Z.eqb_spec x 0) as [_|Hx].
  - apply Z.eqb_neq in Hd as Hd'. rewrite Hd'. split; [reflexivity|exact Hd].
  - apply Z.eqb_neq in Hx as Hx'. rewrite Hx'. split; [reflexivity|exact Hx].
Qed.

Lemma dflt_S (x d : string) : d <> "" ->
  (if String.eqb (if String.eqb x "" then d else x) "" then d
   else (if String.eqb x "" then d else x))
  = (if String.eqb x "" then d else x) /\ (if String.eqb x "" then d else x) <> "".
Proof.
  intros Hd. destruct (String.eqb_spec x "") as [_|Hx].
  - apply String.eqb_neq in Hd as Hd'. rewrite Hd'. split; [reflexivity|exact Hd].
  - apply String.eqb_neq in Hx as Hx'. rewrite Hx'. split; [reflexivity|exact Hx].
Qed.

(** Init fills in every empty or zero option with its default and keeps
    every other value: afterwards no timeout or connection limit is 0 and
    the base URL is not empty, and running Init again changes nothing. *)
Theorem Init_defaults_idempotent (lk lk' : string -> string -> option go_error)
  (opt : Options) :
  let o := fst (fst (Init lk opt)) in
  fst (fst (Init lk' o)) = o /\
  o.(BaseURL) <> "" /\ o.(ConnectTimeout) <> 0 /\ o.(RWTimeout) <> 0 /\
  o.(OpTimeout) <> 0 /\ o.(MaxIdleConns) <> 0 /\ o.(MaxConnsPerHost) <> 0 /\
  o.(MaxIdleConnsPerHost) <> 0 /\ o.(IdleConnTimeout) <> 0.
Proof.
  cbv zeta. rewrite !Init_options.
  destruct opt as [b c r ot m1 m2 m3 i cf kf cd ca]. unfold init_fields.
  cbn [BaseURL ConnectTimeout RWTimeout OpTimeout MaxIdleConns MaxConnsPerHost
       MaxIdleConnsPerHost IdleConnTimeout ClientCertFile ClientKeyFile ClientCADirs
       ClientCAFiles].
  destruct (dflt_S b "https://eos-example.org" ltac:(discriminate)) as [-> Hb].
  destruct (dflt_Z c 30 ltac:(discriminate)) as [-> Hc].
  destruct (dflt_Z r 180 ltac:(discriminate)) as [-> Hr].
  destruct (dflt_Z ot 360 ltac:(discriminate)) as [-> Ho].
  destruct (dflt_Z m1 100 ltac:(discriminate)) as [-> H1].
  destruct (dflt_Z m2 64 ltac:(discriminate)) as [-> H2].
  destruct (dflt_Z m3 8 ltac:(discriminate)) as [-> H3].
  destruct (dflt_Z i 30 ltac:(discriminate)) as [-> Hi].
  destruct (dflt_S cf "/etc/grid-security/hostcert.pem" ltac:(discriminate)) as [-> _].
  destruct (dflt_S kf "/etc/grid-security/hostkey.pem" ltac:(discriminate)) as [-> _].
  repeat split; assumption.
Qed.

(** Init keeps a negative OpTimeout (only 0 is replaced by the default),
    and with it GETFile, PUTFile and Head give up at their first turn:
    they return the timeout error without sending any request. *)
Theorem Init_negative_OpTimeout_no_request (lk : string -> string -> option go_error)
  (opt : Options) (L : NetURL) (urlpath uid gid finalurl : string) (stream_given : bool)
  (timebegin : Z) (a : Attempt) (rest : list Attempt) :
  opt.(OpTimeout) < 0 -> timebegin <= a.(at_now) ->
  buildFullURL L (fst (fst (Init lk opt))) urlpath uid gid = Ret finalurl ->
  (fst (fst (Init lk opt))).(OpTimeout) = opt.(OpTimeout) /\
  GETFile L (fst (fst (Init lk opt))) urlpath uid gid stream_given timebegin (a :: rest)
    = Returned [] a.(at_now) (Fail (timeoutError finalurl)) /\
  PUTFile L (fst (fst (Init lk opt))) urlpath uid gid timebegin (a :: rest)
    = Returned [] a.(at_now) (Fail (timeoutError finalurl)) /\
  Head L (fst (fst (Init lk opt))) urlpath uid gid timebegin (a :: rest)
    = Returned [] a.(at_now) (Fail (timeoutError finalurl)).
Proof.
  intros Hneg Hnow Hurl.
  assert (Hop : (fst (fst (Init lk opt))).(OpTimeout) = opt.(OpTimeout)).
  { rewrite Init_options. unfold init_fields. cbn [OpTimeout].
    destruct (Z.eqb_spec (OpTimeout opt) 0); [lia|reflexivity]. }
  assert (Hlt : ((fst (fst (Init lk opt))).(OpTimeout) <? a.(at_now) - timebegin) = true)
    by (apply Z.ltb_lt; lia).
  unfold GETFile, PUTFile, Head. rewrite Hurl. cbn [getLoop putLoop headLoop].
  rewrite Hlt. repeat split. exact Hop.
Qed.

(** PUTFile follows only 307: on a 307 answer with a Location it goes on
    with a request to that Location, while any other status outside 0,
    200, 201, 403 and 404 (301, 302, 303 and 308 included) is an error
    ("Err from EOS") returned after that one request.  GETFile follows 302
    and 307 and returns that error for the other statuses (301, 303 and
    308 included). *)
Theorem PUTFile_302_not_followed (L : NetURL) (opt : Options) (urlpath uid gid finalurl : string)
  (stream_given : bool) (timebegin : Z) (a : Attempt) (rest : list Attempt) (r : Response) :
  buildFullURL L opt urlpath uid gid = Ret finalurl ->
  a.(at_now) - timebegin <= opt.(OpTimeout) ->
  a.(at_do) = mkDoResult (Some r) None ->
  (forall loc, r.(StatusCode) = 307 -> r.(Location) = Some loc ->
   PUTFile L opt urlpath uid gid timebegin (a :: rest)
   = putLoop opt finalurl loc timebegin [finalurl] rest) /\
  (r.(StatusCode) <> 0 -> r.(StatusCode) <> 200 -> r.(StatusCode) <> 201 ->
   r.(StatusCode) <> 307 -> r.(StatusCode) <> 403 -> r.(StatusCode) <> 404 ->
   PUTFile L opt urlpath uid gid timebegin (a :: rest)
   = Returned [finalurl] a.(at_done) (Fail (InternalError ("Err from EOS: " ++ rspdesc r)))) /\
  (forall loc, (r.(StatusCode) = 302 \/ r.(StatusCode) = 307) -> r.(Location) = Some loc ->
   GETFile L opt urlpath uid gid stream_given timebegin (a :: rest)
   = getLoop opt finalurl loc timebegin stream_given [finalurl] rest) /\
  (r.(StatusCode) <> 0 -> r.(StatusCode) <> 200 -> r.(StatusCode) <> 201 ->
   r.(StatusCode) <> 302 -> r.(StatusCode) <> 307 ->
   r.(StatusCode) <> 403 -> r.(StatusCode) <> 404 ->
   GETFile L opt urlpath uid gid stream_given timebegin (a :: rest)
   = Returned [finalurl] a.(at_done) (Fail (InternalError ("Err from EOS: " ++ rspdesc r)))).
Proof.
  intros Hurl Hin Hdo.
  assert (Hnt : (opt.(OpTimeout) <? a.(at_now) - timebegin) = false) by (apply Z.ltb_ge; lia).
  unfold GETFile, PUTFile. rewrite Hurl. cbn [getLoop putLoop]. rewrite Hnt, Hdo.
  cbn [do_resp do_err app]. unfold is_redirect_get, getRespError.
  split; [|split; [|split]].
  - intros loc Hsc Hloc. rewrite Hsc, Hloc. reflexivity.
  - intros H0 H200 H201 H307 H403 H404.
    apply Z.eqb_neq in H0, H200, H201, H307, H403, H404.
    rewrite H0, H200, H201, H307, H403, H404. reflexivity.
  - intros loc [Hsc|Hsc] Hloc; rewrite Hsc, Hloc; reflexivity.
  - intros H0 H200 H201 H302 H307 H403 H404.
    apply Z.eqb_neq in H0, H200, H201, H302, H307, H403, H404.
    rewrite H0, H200, H201, H302, H307, H403, H404. reflexivity.
Qed.

(** A turn that is within the deadline and ends in a transport timeout
    (no response, an error whose Timeout() is true). *)
Definition timeout_turn (opt : Options) (timebegin : Z) (a : Attempt) : bool :=
  (a.(at_now) - timebegin <=? opt.(OpTimeout))
  && match a.(at_do).(do_resp) with None => true | Some _ => false end
  && match a.(at_do).(do_err) with Some e => os_IsTimeout e | None => false end.

(** Transport timeouts are retried at once with the same URL: in the
    GETFile, PUTFile and Head loops, a turn within the deadline that ends
    in a transport timeout sends its request to the current URL and the
    loop goes on with the next turn, whatever that turn brings. *)
Theorem loops_retry_same_url_on_timeouts (opt : Options) (finalurl curl : string)
  (timebegin : Z) (stream_given : bool) (sent : list string) (a : Attempt)
  (rest : list Attempt) :
  timeout_turn opt timebegin a = true ->
  getLoop opt finalurl curl timebegin stream_given sent (a :: rest)
    = getLoop opt finalurl curl timebegin stream_given (app sent [curl]) rest /\
  putLoop opt finalurl curl timebegin sent (a :: rest)
    = putLoop opt finalurl curl timebegin (app sent [curl]) rest /\
  headLoop opt finalurl timebegin sent (a :: rest)
    = headLoop opt finalurl timebegin (app sent [finalurl]) rest.
Proof.
  intros Ha. unfold timeout_turn in Ha.
  destruct (Z.leb_spec (at_now a - timebegin) (OpTimeout opt)) as [Hin|]; [|discriminate].
  destruct (do_resp (at_do a)) as [r|] eqn:Er; [discriminate|].
  destruct (do_err (at_do a)) as [e|] eqn:Ee; [|discriminate].
  simpl in Ha.
  assert (Hnt : (opt.(OpTimeout) <? a.(at_now) - timebegin) = false) by (apply Z.ltb_ge; lia).
  cbn [getLoop putLoop headLoop]. rewrite Hnt, Er, Ee. cbn [getRespError]. rewrite Ha.
  repeat split.
Qed.

Definition w_neg_opt : Options :=
  mkOptions "https://eos-example.org" 30 180 (-1) 100 64 8 30 "" "" "" "".

Definition w_turn (t : Z) (d : DoResult) : Attempt := mkAttempt t d t None.

Definition w_found : Response :=
  mkResponse 302 "302 Found" (Some "https://fst.example.org/eos/f") "".

Definition w_timeout : DoResult := mkDoResult None (Some (NetError true "i/o timeout")).

Lemma Init_negative_OpTimeout_no_request_witness :
  Head textURL (fst (fst (Init (fun _ _ => None) w_neg_opt))) "/eos/f" "" "" 0
    [w_turn 0 (mkDoResult None None)]
  = Returned [] 0 (Fail (timeoutError "https://eos-example.org/eos/f?")).
Proof.
  apply (Init_negative_OpTimeout_no_request (fun _ _ => None) w_neg_opt textURL "/eos/f" "" ""
           "https://eos-example.org/eos/f?" false 0 (w_turn 0 (mkDoResult None None)) []);
    simpl; [lia|lia|reflexivity].
Defined.

Definition w_moved : Response :=
  mkResponse 307 "307 Temporary Redirect" (Some "https://fst.example.org/eos/f") "".

Lemma PUTFile_302_not_followed_witness :
  PUTFile textURL defaultOptions "/eos/f" "" "" 0 [w_turn 1 (mkDoResult (Some w_found) None)]
  = Returned ["https://eos-example.org/eos/f?"] 1
      (Fail (InternalError ("Err from EOS: " ++ rspdesc w_found))) /\
  PUTFile textURL defaultOptions "/eos/f" "" "" 0
    [w_turn 1 (mkDoResult (Some w_moved) None); w_turn 2 w_timeout]
  = putLoop defaultOptions "https://eos-example.org/eos/f?" "https://fst.example.org/eos/f" 0
      ["https://eos-example.org/eos/f?"] [w_turn 2 w_timeout] /\
  GETFile textURL defaultOptions "/eos/f" "" "" false 0
    [w_turn 1 (mkDoResult (Some w_found) None); w_turn 2 w_timeout]
  = getLoop defaultOptions "https://eos-example.org/eos/f?" "https://fst.example.org/eos/f" 0
      false ["https://eos-example.org/eos/f?"] [w_turn 2 w_timeout].
Proof.
  destruct (PUTFile_302_not_followed textURL defaultOptions "/eos/f" "" ""
              "https://eos-example.org/eos/f?" false 0 (w_turn 1 (mkDoResult (Some w_found) None))
              [w_turn 2 w_timeout] w_found) as (_ & Hp & Hg & _);
    [reflexivity|simpl; lia|reflexivity|].
  destruct (PUTFile_302_not_followed textURL defaultOptions "/eos/f" "" ""
              "https://eos-example.org/eos/f?" false 0 (w_turn 1 (mkDoResult (Some w_moved) None))
              [w_turn 2 w_timeout] w_moved) as (Hm & _);
    [reflexivity|simpl; lia|reflexivity|].
  split; [|split].
  - destruct (PUTFile_302_not_followed textURL defaultOptions "/eos/f" "" ""
                "https://eos-example.org/eos/f?" false 0
                (w_turn 1 (mkDoResult (Some w_found) None)) [] w_found) as (_ & Hp0 & _);
      [reflexivity|simpl; lia|reflexivity|].
    apply Hp0; discriminate.
  - apply (Hm "https://fst.example.org/eos/f"); reflexivity.
  - apply (Hg "https://fst.example.org/eos/f"); [left|]; reflexivity.
Defined.

Lemma loops_retry_same_url_on_timeouts_witness :
  getLoop defaultOptions "https://eos-example.org/eos/f?" "https://eos-example.org/eos/f?" 0
    false [] [w_turn 0 w_timeout; w_turn 30 (mkDoResult (Some w_found) None)]
  = getLoop defaultOptions "https://eos-example.org/eos/f?" "https://eos-example.org/eos/f?" 0
    false ["https://eos-example.org/eos/f?"] [w_turn 30 (mkDoResult (Some w_found) None)].
Proof.
  apply (loops_retry_same_url_on_timeouts defaultOptions "https://eos-example.org/eos/f?"
           "https://eos-example.org/eos/f?" 0 false [] (w_turn 0 w_timeout)
           [w_turn 30 (mkDoResult (Some w_found) None)]).
  reflexivity.
Defined.

End HttpMoreFacts.

Module AlertFacts.
Import Alerting.

Section Dispatching.
Variable EqualFold : string -> string -> bool.
Variable SendAlertNotification : Notification -> option go_error.
Variable notificationsMail : string.

Definition matching (alert : Alert) (siteID : string) (account : Account) : list Notification :=
  if EqualFold account.(Site) siteID && account.(ReceiveAlerts)
  then [mkNotification account [account.(Email); notificationsMail] (alertValues alert)]
  else [].

Lemma dispatch_accounts_sent (alert : Alert) (siteID : string) (accounts : list Account)
  (st : list Notification * list (string * string)) :
  fst (fold_left (dispatch_account EqualFold SendAlertNotification notificationsMail
                    alert siteID) accounts st)
  = app (fst st) (flat_map (matching alert siteID) accounts).
Proof.
  revert st. induction accounts as [|acc t IH]; intros st; simpl; [rewrite app_nil_r; reflexivity|].
  rewrite IH. unfold dispatch_account, matching, dispatchAlert.
  destruct (EqualFold (Site acc) siteID && ReceiveAlerts acc); simpl;
    [rewrite <- app_assoc; reflexivity|reflexivity].
Qed.

Lemma dispatch_alerts_sent (alerts : list Alert) (accounts : list Account)
  (st : list Notification * list (string * string)) :
  fst (fold_left (fun st alert =>
                    if map_has alert.(Labels) "site_id"
                    then fold_left (dispatch_account EqualFold SendAlertNotification
                                      notificationsMail alert (map_get alert.(Labels) "site_id"))
                           accounts st
                    else st) alerts st)
  = app (fst st) (flat_map (fun alert =>
                              if map_has alert.(Labels) "site_id"
                              then flat_map (matching alert (map_get alert.(Labels) "site_id"))
                                     accounts
                              else []) alerts).
Proof.
  revert st. induction alerts as [|al t IH]; intros st; simpl; [rewrite app_nil_r; reflexivity|].
  rewrite IH. destruct (map_has (Labels al) "site_id").
  - rewrite dispatch_accounts_sent, <- app_assoc. reflexivity.
  - rewrite app_nil_l. reflexivity.
Qed.

(** DispatchAlerts mails an alert to exactly the accounts that asked for
    alerts and whose site matches the alert's site_id label (compared by
    EqualFold), with the account's address and the notifications address
    as recipients; alerts without a site_id label are skipped, a failed
    send does not stop the others, and DispatchAlerts returns nil. *)
Theorem DispatchAlerts_notifies_subscribers (alerts : list Alert) (accounts : list Account)
  (n : Notification) :
  snd (DispatchAlerts EqualFold SendAlertNotification notificationsMail alerts accounts) = None /\
  (In n (fst (fst (DispatchAlerts EqualFold SendAlertNotification notificationsMail
                     alerts accounts))) <->
   exists alert account, In alert alerts /\ In account accounts /\
     map_has alert.(Labels) "site_id" = true /\
     EqualFold account.(Site) (map_get alert.(Labels) "site_id") = true /\
     account.(ReceiveAlerts) = true /\
     n = mkNotification account [account.(Email); notificationsMail] (alertValues alert)).
Proof.
  unfold DispatchAlerts.
  pose proof (dispatch_alerts_sent alerts accounts ([], [])) as H.
  destruct (fold_left _ alerts ([], [])) as [sent logged]. simpl in H |- *.
  split; [reflexivity|]. rewrite H, in_flat_map. split.
  - intros (alert & Hal & Hin).
    destruct (map_has (Labels alert) "site_id") eqn:Hs; [|contradiction].
    apply in_flat_map in Hin as (account & Hacc & Hin). unfold matching in Hin.
    destruct (EqualFold (Site account) (map_get (Labels alert) "site_id")) eqn:He,
             (ReceiveAlerts account) eqn:Hr; simpl in Hin; try contradiction.
    destruct Hin as [<-|[]]. exists alert, account. repeat split; assumption.
  - intros (alert & account & Hal & Hacc & Hs & He & Hr & ->).
    exists alert. split; [exact Hal|]. rewrite Hs. apply in_flat_map.
    exists account. split; [exact Hacc|]. unfold matching. rewrite He, Hr. left. reflexivity.
Qed.

End Dispatching.

End AlertFacts.
